(** * Mine microgrid simulator: dispatch engine and energy-flow attribution

    A shallow embedding of

      - [run_simulation]       (src/modules/simulation_engine.py, lines 278-400)
      - the flow-accounting loop of [create_sankey_chart]
                               (src/modules/results_analyzer.py, lines 192-272)

    and, around them,

      - [calculate_kpis] and the links of [create_sankey_chart]
                               (src/modules/results_analyzer.py)
      - [validate_inputs]      (src/modules/validation.py)
      - [load_mine_load_profile] and the load patterns
                               (src/modules/data_handler.py, config.py)
      - what [calculate_solar_power] and [calculate_wind_power] do around
        the library runs       (src/modules/simulation_engine.py)
      - the run button of [main] and [start_async_simulation]
                               (src/app.py)

    Numbers.  The Python code computes with binary64 floats.  The
    development carries two models of them.  In the first every quantity
    is an exact rational ([Q]), compared with [==]: it gives the arithmetic
    the code writes down, and its theorems are equations (policy, balances,
    sums, conservation) that hold of the code up to rounding.  In the
    second ([FloatEngine]) the dispatch engine runs on primitive binary64
    numbers, rounding included: what the ledger records next to a limit
    (the state of charge against the capacity, a flow against zero) is
    settled there, since the exact cancellation of
    [(capacity - soc) / eta * eta] does not survive rounding.  Division is
    the one partial operation: dividing by
    zero raises [ZeroDivisionError] on Python numbers, which the model
    renders as [None].  The divisors of [run_simulation] are the capacity
    and the efficiency, plain Python numbers handed in by the caller.  With
    capacity 0 the state of charge stays a Python float and the first hour
    raises; with efficiency 0 the first surplus hour raises unless an
    earlier deficit hour has turned the state of charge into a numpy
    scalar, in which case Python goes on with an infinite headroom: that
    one continuation is outside the model, which stops there.

    Keyword arguments.  [**kwargs] is an association list from names to
    numbers, read with [kwargs.get(name, default)].

    Series.  A [pandas.Series] is a [list Q]; [s.iloc[i]] is [nth_error],
    whose [None] is the [IndexError] of an out-of-range position.  The
    [timestamp] column only copies the index of [mine_load] and is left out
    of the row record.

    Errors.  The whole body of [run_simulation] sits in
    [try: ... except Exception: st.error(...); return None], so every
    exception raised inside becomes the result [None]. *)

From Stdlib Require Import QArith Qminmax Lqa Lia List String Bool PeanoNat ZArith.
From Stdlib Require PrimFloat.
Import ListNotations.

Local Open Scope Q_scope.

(** ** Python primitives *)

Module Py.

(** [a < b] on numbers. *)
Definition lt (a b : Q) : bool := negb (Qle_bool b a).

(** [a > b]. *)
Definition gt (a b : Q) : bool := lt b a.

(** [a / b]; [None] stands for [ZeroDivisionError]. *)
Definition div (a b : Q) : option Q :=
  if Qeq_bool b 0 then None else Some (a / b).

(** The builtin [min(a, b)]: the first argument is kept unless the second
    is strictly smaller. *)
Definition min2 (a b : Q) : Q := if lt b a then b else a.

(** The builtin [min(a, b, c)]: a left-to-right scan keeping the first
    smallest element. *)
Definition min3 (a b c : Q) : Q := min2 (min2 a b) c.

(** [kwargs.get(key, default)] on a keyword dictionary. *)
Fixpoint get (kwargs : list (string * Q)) (key : string) (default : Q) : Q :=
  match kwargs with
  | [] => default
  | (k, v) :: rest => if String.eqb k key then v else get rest key default
  end.

(** Sequencing of computations that may raise. *)
Definition bind {A B : Type} (m : option A) (k : A -> option B) : option B :=
  match m with
  | Some a => k a
  | None => None
  end.

End Py.

Notation "x <- m ;; k" := (Py.bind m (fun x => k))
  (at level 61, m at next level, right associativity).

(** ** The hourly ledger row *)

(** One dictionary [hour_result] of [run_simulation], which is also one row
    of the data frame read back by [create_sankey_chart]. *)
Record hour_result : Type := mk_hour_result {
  mine_load_kw : Q;
  solar_power_kw : Q;
  wind_power_kw : Q;
  renewable_total_kw : Q;
  net_load_kw : Q;
  battery_charge_kw : Q;
  battery_discharge_kw : Q;
  battery_soc_kwh : Q;
  battery_soc_percent : Q;
  grid_buy_kw : Q;
  grid_sell_kw : Q;
  grid_cost_usd : Q;
  grid_revenue_usd : Q;
  net_grid_cost_usd : Q
}.

(** ** simulation_engine.py *)

Module SimulationEngine.

(** The values [run_simulation] fixes before its loop. *)
Record settings : Type := mk_settings {
  grid_purchase_price : Q;
  grid_sell_price : Q;
  round_trip_efficiency : Q;
  battery_capacity_kwh : Q;
  battery_power_kw : Q
}.

(** Lines 295-301: the keyword arguments with their defaults, and the
    unit conversions MWh -> kWh, MW -> kW. *)
Definition read_settings (battery_capacity_mwh battery_power_mw : Q)
           (kwargs : list (string * Q)) : settings :=
  {| grid_purchase_price := Py.get kwargs "grid_purchase_price" (15 # 100);
     grid_sell_price := Py.get kwargs "grid_sell_price" (5 # 100);
     round_trip_efficiency := Py.get kwargs "round_trip_efficiency" (85 # 100);
     battery_capacity_kwh := battery_capacity_mwh * 1000;
     battery_power_kw := battery_power_mw * 1000 |}.

(** Line 307: the state of charge the loop starts from. *)
Definition initial_soc_kwh (cfg : settings) : Q :=
  battery_capacity_kwh cfg * (1 # 2).

(** The energy flows of one hour, lines 322-362:
    (charge, discharge, new state of charge, grid purchase, grid sale).
    On rationals [(capacity - soc) / eta * eta] is [capacity - soc]; the
    code rounds each operation, see [FloatEngine.dispatch]. *)
Definition dispatch (cfg : settings) (soc net_load : Q)
  : option (Q * Q * Q * Q * Q) :=
  if Py.gt net_load 0 then
    let max_discharge := Py.min3 (battery_power_kw cfg) soc net_load in
    let discharge := max_discharge in
    let soc' := soc - discharge in
    let remaining_deficit := net_load - discharge in
    let buy := if Py.gt remaining_deficit 0 then remaining_deficit else 0 in
    Some (0, discharge, soc', buy, 0)
  else
    let excess_power_kw := - net_load in
    headroom <- Py.div (battery_capacity_kwh cfg - soc)
                       (round_trip_efficiency cfg) ;;
    let max_charge := Py.min3 (battery_power_kw cfg) headroom excess_power_kw in
    let charge := max_charge in
    let soc' := soc + charge * round_trip_efficiency cfg in
    let remaining_excess := excess_power_kw - charge in
    let sell := if Py.gt remaining_excess 0 then remaining_excess else 0 in
    Some (charge, 0, soc', 0, sell).

(** The body of the loop, lines 311-388, for the hour whose inputs are
    [load_kw], [solar_kw] and [wind_kw] and whose incoming state of charge
    is [soc].  The recorded values are exact here and rounded in
    [FloatEngine.simulate_hour]. *)
Definition simulate_hour (cfg : settings) (soc load_kw solar_kw wind_kw : Q)
  : option hour_result :=
  let renewable_generation_kw := solar_kw + wind_kw in
  let net := load_kw - renewable_generation_kw in
  flows <- dispatch cfg soc net ;;
  let '(charge, discharge, soc', buy, sell) := flows in
  let cost := buy * grid_purchase_price cfg / 1000 in
  let revenue := sell * grid_sell_price cfg / 1000 in
  ratio <- Py.div soc' (battery_capacity_kwh cfg) ;;
  Some {| mine_load_kw := load_kw;
          solar_power_kw := solar_kw;
          wind_power_kw := wind_kw;
          renewable_total_kw := renewable_generation_kw;
          net_load_kw := net;
          battery_charge_kw := charge;
          battery_discharge_kw := discharge;
          battery_soc_kwh := soc';
          battery_soc_percent := ratio * 100;
          grid_buy_kw := buy;
          grid_sell_kw := sell;
          grid_cost_usd := cost;
          grid_revenue_usd := revenue;
          net_grid_cost_usd := cost - revenue |}.

(** [for i in range(len(mine_load))], with the state of charge threaded
    from one hour to the next; [hours] is the list of positions still to
    visit. *)
Fixpoint simulation_loop (cfg : settings) (mine_load solar_power wind_power : list Q)
         (hours : list nat) (soc : Q) : option (list hour_result) :=
  match hours with
  | [] => Some []
  | i :: later =>
      load_kw <- nth_error mine_load i ;;
      solar_kw <- nth_error solar_power i ;;
      wind_kw <- nth_error wind_power i ;;
      row <- simulate_hour cfg soc load_kw solar_kw wind_kw ;;
      rows <- simulation_loop cfg mine_load solar_power wind_power later
                              (battery_soc_kwh row) ;;
      Some (row :: rows)
  end.

(** Lines 393-394: [pd.DataFrame(results)] followed by
    [set_index('timestamp')].  A frame built from an empty list has no
    column at all, so [set_index] raises [KeyError]. *)
Definition to_frame (results : list hour_result) : option (list hour_result) :=
  match results with
  | [] => None
  | _ :: _ => Some results
  end.

(** [run_simulation(mine_load, solar_power, wind_power,
    battery_capacity_mwh, battery_power_mw, **kwargs)]: the ledger, or
    [None] when anything inside raised. *)
Definition run_simulation (mine_load solar_power wind_power : list Q)
           (battery_capacity_mwh battery_power_mw : Q)
           (kwargs : list (string * Q)) : option (list hour_result) :=
  let cfg := read_settings battery_capacity_mwh battery_power_mw kwargs in
  results <- simulation_loop cfg mine_load solar_power wind_power
                             (seq 0 (List.length mine_load)) (initial_soc_kwh cfg) ;;
  to_frame results.

(** The state of charge hour [i] starts from, read off a ledger: the
    initial value for the first hour, the previous row's value after. *)
Definition soc_before (soc0 : Q) (ledger : list hour_result) (i : nat) : Q :=
  match i with
  | O => soc0
  | S j => match nth_error ledger j with
           | Some row => battery_soc_kwh row
           | None => soc0
           end
  end.

(** The rows the loop emits when it enters hour [i] with state of charge
    [soc]: each row is the loop body run on the inputs at its position,
    and hands its state of charge to the next. *)
Inductive ledger_from (cfg : settings) (mine_load solar_power wind_power : list Q)
  : nat -> Q -> list hour_result -> Prop :=
| ledger_done : forall i soc,
    ledger_from cfg mine_load solar_power wind_power i soc []
| ledger_hour : forall i soc load_kw solar_kw wind_kw row rows,
    nth_error mine_load i = Some load_kw ->
    nth_error solar_power i = Some solar_kw ->
    nth_error wind_power i = Some wind_kw ->
    simulate_hour cfg soc load_kw solar_kw wind_kw = Some row ->
    ledger_from cfg mine_load solar_power wind_power (S i)
                (battery_soc_kwh row) rows ->
    ledger_from cfg mine_load solar_power wind_power i soc (row :: rows).

End SimulationEngine.

(** ** results_analyzer.py *)

Module ResultsAnalyzer.

(** The eight running totals of [create_sankey_chart], lines 205-212. *)
Record flows : Type := mk_flows {
  solar_to_load : Q;
  solar_to_battery : Q;
  solar_to_grid : Q;
  wind_to_load : Q;
  wind_to_battery : Q;
  wind_to_grid : Q;
  grid_to_load : Q;
  battery_to_load : Q
}.

Definition no_flows : flows := mk_flows 0 0 0 0 0 0 0 0.

(** Lines 229-256: the share of the hour's renewable generation that goes
    to the load, to the battery and to the grid.  The inner test
    [if renewable_total > 0] of line 234 repeats the outer one and is
    always taken there, so the two ratios are always bound. *)
Definition attribute_renewables (acc : flows) (hour_data : hour_result)
  : option flows :=
  let load_kw := mine_load_kw hour_data in
  let solar_kw := solar_power_kw hour_data in
  let wind_kw := wind_power_kw hour_data in
  let charge_kw := battery_charge_kw hour_data in
  let sell_kw := grid_sell_kw hour_data in
  let renewable_total := solar_kw + wind_kw in
  if Py.gt renewable_total 0 then
    let renewable_to_load := Py.min2 renewable_total load_kw in
    solar_ratio <- Py.div solar_kw renewable_total ;;
    wind_ratio <- Py.div wind_kw renewable_total ;;
    let s_load := solar_to_load acc + renewable_to_load * solar_ratio in
    let w_load := wind_to_load acc + renewable_to_load * wind_ratio in
    let remaining_renewable := renewable_total - renewable_to_load in
    if Py.gt remaining_renewable 0 then
      let '(s_batt, w_batt, remaining_renewable) :=
        if Py.gt charge_kw 0 then
          let charge_from_renewable := Py.min2 charge_kw remaining_renewable in
          (solar_to_battery acc + charge_from_renewable * solar_ratio,
           wind_to_battery acc + charge_from_renewable * wind_ratio,
           remaining_renewable - charge_from_renewable)
        else (solar_to_battery acc, wind_to_battery acc, remaining_renewable) in
      let '(s_grid, w_grid) :=
        if Py.gt remaining_renewable 0 && Py.gt sell_kw 0 then
          let sell_from_renewable := Py.min2 sell_kw remaining_renewable in
          (solar_to_grid acc + sell_from_renewable * solar_ratio,
           wind_to_grid acc + sell_from_renewable * wind_ratio)
        else (solar_to_grid acc, wind_to_grid acc) in
      Some (mk_flows s_load s_batt s_grid w_load w_batt w_grid
                     (grid_to_load acc) (battery_to_load acc))
    else
      Some (mk_flows s_load (solar_to_battery acc) (solar_to_grid acc)
                     w_load (wind_to_battery acc) (wind_to_grid acc)
                     (grid_to_load acc) (battery_to_load acc))
  else Some acc.

(** The body of the loop of lines 215-262 for one row. *)
Definition attribute_hour (acc : flows) (hour_data : hour_result) : option flows :=
  acc' <- attribute_renewables acc hour_data ;;
  Some (mk_flows (solar_to_load acc') (solar_to_battery acc') (solar_to_grid acc')
                 (wind_to_load acc') (wind_to_battery acc') (wind_to_grid acc')
                 (grid_to_load acc' + grid_buy_kw hour_data)
                 (battery_to_load acc' + battery_discharge_kw hour_data)).

(** [for i in range(len(simulation_results_df))]. *)
Fixpoint attribute_rows (acc : flows) (df : list hour_result) : option flows :=
  match df with
  | [] => Some acc
  | hour_data :: later =>
      acc' <- attribute_hour acc hour_data ;;
      attribute_rows acc' later
  end.

(** Lines 265-272: kWh -> GWh. *)
Definition to_gwh (acc : flows) : flows :=
  mk_flows (solar_to_load acc / 1000000) (solar_to_battery acc / 1000000)
           (solar_to_grid acc / 1000000) (wind_to_load acc / 1000000)
           (wind_to_battery acc / 1000000) (wind_to_grid acc / 1000000)
           (grid_to_load acc / 1000000) (battery_to_load acc / 1000000).

(** The flow totals [create_sankey_chart] builds its links from. *)
Definition sankey_flows (df : list hour_result) : option flows :=
  acc <- attribute_rows no_flows df ;;
  Some (to_gwh acc).

(** [df[column].sum()]. *)
Definition column_sum (column : hour_result -> Q) (df : list hour_result) : Q :=
  fold_right Qplus 0 (map column df).

(** Lines 195-199: the yearly totals read off the ledger. *)
Definition total_grid_purchase_gwh (df : list hour_result) : Q :=
  column_sum grid_buy_kw df / 1000000.
Definition total_load_consumption_gwh (df : list hour_result) : Q :=
  column_sum mine_load_kw df / 1000000.
Definition total_battery_charge_gwh (df : list hour_result) : Q :=
  column_sum battery_charge_kw df / 1000000.
Definition total_grid_sell_gwh (df : list hour_result) : Q :=
  column_sum grid_sell_kw df / 1000000.
Definition total_battery_discharge_gwh (df : list hour_result) : Q :=
  column_sum battery_discharge_kw df / 1000000.

End ResultsAnalyzer.


Import SimulationEngine ResultsAnalyzer.

(** ** Vocabulary of the specification *)

(** A legal storage configuration: capacity and power limit are not
    negative and the efficiency lies in (0, 1]. *)
Definition valid_settings (cfg : settings) : Prop :=
  0 <= battery_capacity_kwh cfg /\
  0 <= battery_power_kw cfg /\
  0 < round_trip_efficiency cfg /\ round_trip_efficiency cfg <= 1.

(** A series without negative values. *)
Definition nonnegative (series : list Q) : Prop :=
  Forall (fun x => 0 <= x) series.

(** The deficit case of the fixed-priority policy: [prev] is the state of
    charge the hour starts from and [L] its net load. *)
Definition deficit_step (cfg : settings) (prev L : Q) (row : hour_result) : Prop :=
  battery_discharge_kw row == Qmin (battery_power_kw cfg) (Qmin prev L) /\
  battery_soc_kwh row == prev - battery_discharge_kw row /\
  grid_buy_kw row == L - battery_discharge_kw row /\
  battery_charge_kw row == 0 /\
  grid_sell_kw row == 0.

(** The surplus case, with surplus [- L]. *)
Definition surplus_step (cfg : settings) (prev L : Q) (row : hour_result) : Prop :=
  battery_charge_kw row ==
    Qmin (battery_power_kw cfg)
         (Qmin ((battery_capacity_kwh cfg - prev) / round_trip_efficiency cfg) (- L)) /\
  battery_soc_kwh row == prev + battery_charge_kw row * round_trip_efficiency cfg /\
  grid_sell_kw row == - L - battery_charge_kw row /\
  battery_discharge_kw row == 0 /\
  grid_buy_kw row == 0.

(** The bounds a ledger row has to respect. *)
Definition row_bounds (cfg : settings) (row : hour_result) : Prop :=
  0 <= battery_soc_kwh row /\
  battery_soc_kwh row <= battery_capacity_kwh cfg /\
  battery_charge_kw row <= battery_power_kw cfg /\
  battery_discharge_kw row <= battery_power_kw cfg /\
  battery_charge_kw row * battery_discharge_kw row == 0 /\
  grid_buy_kw row * grid_sell_kw row == 0.

(** All four flows of a row are non-negative. *)
Definition flows_nonnegative (row : hour_result) : Prop :=
  0 <= battery_charge_kw row /\
  0 <= battery_discharge_kw row /\
  0 <= grid_buy_kw row /\
  0 <= grid_sell_kw row.

(** What the dispatch engine guarantees about a row once the inputs are
    non-negative and the configuration legal, in the form the attribution
    needs it. *)
Definition dispatched_row (row : hour_result) : Prop :=
  0 <= mine_load_kw row /\ 0 <= solar_power_kw row /\ 0 <= wind_power_kw row /\
  (0 < mine_load_kw row - (solar_power_kw row + wind_power_kw row) ->
   battery_charge_kw row == 0 /\ grid_sell_kw row == 0 /\
   battery_discharge_kw row + grid_buy_kw row ==
     mine_load_kw row - (solar_power_kw row + wind_power_kw row)) /\
  (mine_load_kw row - (solar_power_kw row + wind_power_kw row) <= 0 ->
   battery_discharge_kw row == 0 /\ grid_buy_kw row == 0 /\
   0 <= battery_charge_kw row /\ 0 <= grid_sell_kw row /\
   battery_charge_kw row + grid_sell_kw row ==
     (solar_power_kw row + wind_power_kw row) - mine_load_kw row).

(** The amounts the attribution hands out in one hour, in the words of the
    specification: the generation that meets the load, then what of the
    remainder goes into the battery, then what of the rest is sold. *)
Definition renewable_to_load (row : hour_result) : Q :=
  Qmin (solar_power_kw row + wind_power_kw row) (mine_load_kw row).

Definition renewable_to_charge (row : hour_result) : Q :=
  Qmin (battery_charge_kw row)
       (solar_power_kw row + wind_power_kw row - renewable_to_load row).

Definition renewable_to_export (row : hour_result) : Q :=
  Qmin (grid_sell_kw row)
       (solar_power_kw row + wind_power_kw row - renewable_to_load row
        - renewable_to_charge row).

(** A source's instantaneous share of the renewable generation. *)
Definition share (source_kw : Q) (row : hour_result) : Q :=
  source_kw / (solar_power_kw row + wind_power_kw row).

(** What the attribution credits to each destination, summed over its
    sources: the load is fed by sun, wind, grid and battery; battery charge
    and grid sale by sun and wind. *)
Definition into_load (f : flows) : Q :=
  solar_to_load f + wind_to_load f + grid_to_load f + battery_to_load f.

Definition into_battery (f : flows) : Q :=
  solar_to_battery f + wind_to_battery f.

Definition into_grid (f : flows) : Q :=
  solar_to_grid f + wind_to_grid f.

(** ** A small run used to exercise the theorems

    Three hours on a 100 kWh / 100 kW battery with efficiency 0.9: a
    surplus hour, a deficit hour and a balanced hour. *)

Definition demo_load : list Q := [50; 120; 30].
Definition demo_solar : list Q := [80; 0; 10].
Definition demo_wind : list Q := [0; 20; 20].
Definition demo_kwargs : list (string * Q) :=
  [("round_trip_efficiency"%string, 9 # 10); ("grid_purchase_price"%string, 1 # 10)].

Definition demo_ledger : list hour_result :=
  Eval vm_compute in
    match run_simulation demo_load demo_solar demo_wind (1 # 10) (1 # 10) demo_kwargs with
    | Some ledger => ledger
    | None => []
    end.

(** ** results_analyzer.py: the yearly indicators *)

Module Kpi.

(** pandas' [Series.mean()]; [None] is the NaN of an empty series. *)
Definition mean (xs : list Q) : option Q :=
  match xs with
  | [] => None
  | _ :: _ => Some (fold_right Qplus 0 xs / inject_Z (Z.of_nat (List.length xs)))
  end.

(** pandas' [Series.max()]; [None] is the NaN of an empty series. *)
Definition series_max (xs : list Q) : option Q :=
  match xs with
  | [] => None
  | x :: rest => Some (fold_left Qmax rest x)
  end.

(** [(num / den) * 100 if den > 0 else 0]: the quotient is only evaluated
    when the guard holds. *)
Definition percent_of (num den : Q) : option Q :=
  if Py.gt den 0 then (ratio <- Py.div num den ;; Some (ratio * 100)) else Some 0.

(** The dictionary [calculate_kpis] returns, lines 67-93. *)
Record kpis : Type := mk_kpis {
  total_consumption_gwh : Q;
  total_solar_generation_gwh : Q;
  total_wind_generation_gwh : Q;
  total_renewable_generation_gwh : Q;
  total_grid_purchase_gwh : Q;
  total_grid_sell_gwh : Q;
  total_battery_charge_gwh : Q;
  total_battery_discharge_gwh : Q;
  total_grid_cost : Q;
  total_grid_revenue : Q;
  net_grid_cost : Q;
  renewable_penetration : Q;
  renewable_self_consumption : Q;
  grid_dependency : Q;
  battery_efficiency : Q;
  avg_battery_soc : option Q;
  battery_cycles : Q;
  co2_reduction_tons : Q
}.

(** [calculate_kpis(results_df, economic_params)], lines 14-98.  The
    function does not read [economic_params].  [None] is the empty
    dictionary returned after an exception.  A frame is the list of its
    rows, and the empty list is the frame built from no row (see
    [to_frame]): it has no column, so [results_df['mine_load_kw']] at
    line 27 raises [KeyError]. *)
Definition calculate_kpis (results_df : list hour_result)
           (economic_params : list (string * Q)) : option kpis :=
  match results_df with
  | [] => None
  | _ :: _ =>
      let consumption := column_sum mine_load_kw results_df / 1000000 in
      let solar := column_sum solar_power_kw results_df / 1000000 in
      let wind := column_sum wind_power_kw results_df / 1000000 in
      let renewable := solar + wind in
      let purchase := column_sum grid_buy_kw results_df / 1000000 in
      let sell := column_sum grid_sell_kw results_df / 1000000 in
      let charge := column_sum battery_charge_kw results_df / 1000000 in
      let discharge := column_sum battery_discharge_kw results_df / 1000000 in
      let cost := column_sum grid_cost_usd results_df in
      let revenue := column_sum grid_revenue_usd results_df in
      let net := cost - revenue in
      penetration <- percent_of renewable consumption ;;
      self_consumption <- percent_of (renewable - sell) renewable ;;
      dependency <- percent_of purchase consumption ;;
      efficiency <- percent_of discharge charge ;;
      let avg_soc := mean (map battery_soc_percent results_df) in
      cycles <- match series_max (map battery_soc_kwh results_df) with
                | Some top => if Py.gt top 0 then Py.div charge (top / 1000000)
                              else Some 0
                | None => Some 0
                end ;;
      let carbon_emission_factor := 58 # 100 in
      let co2 := renewable * 1000000 * carbon_emission_factor / 1000 in
      Some (mk_kpis consumption solar wind renewable purchase sell charge
                    discharge cost revenue net penetration self_consumption
                    dependency efficiency avg_soc cycles co2)
  end.

End Kpi.

(** ** results_analyzer.py: the links of the Sankey chart *)

Module Sankey.

(** A link of the chart: source node, target node, value in GWh.  The
    code keeps three parallel lists [source], [target], [value] and always
    appends to the three together. *)
Definition link : Type := (nat * nat * Q)%type.

Record chart : Type := mk_chart {
  labels : list string;
  links : list link
}.

(** Lines 173-180. *)
Definition base_labels : list string :=
  ["太阳能发电"; "风力发电"; "电网购电"; "本地负荷"; "储能充电"; "电网售电"]%string.

(** [if value > 0.01: source.append(s); target.append(t);
    value.append(value)]. *)
Definition add_link (so_far : list link) (s t : nat) (value : Q) : list link :=
  if Py.gt value (1 # 100) then so_far ++ [(s, t, value)] else so_far.

(** Lines 274-333, from the flow totals in GWh and the yearly discharge. *)
Definition build_chart (f : flows) (total_discharge_gwh : Q) : chart :=
  let l := add_link [] 0 3 (solar_to_load f) in
  let l := add_link l 0 4 (solar_to_battery f) in
  let l := add_link l 0 5 (solar_to_grid f) in
  let l := add_link l 1 3 (wind_to_load f) in
  let l := add_link l 1 4 (wind_to_battery f) in
  let l := add_link l 1 5 (wind_to_grid f) in
  let l := add_link l 2 3 (grid_to_load f) in
  if Py.gt (battery_to_load f) (1 # 100) then
    let labels := base_labels ++ ["储能放电"%string] in
    let l := add_link l 4 6 total_discharge_gwh in
    let l := l ++ [(6%nat, 3%nat, battery_to_load f)] in
    mk_chart labels l
  else mk_chart base_labels l.

(** [create_sankey_chart(simulation_results_df, kpi_results)]; the second
    argument is not read.  [None] is the empty figure of the [except]
    branch.  The frame built from no row has no column, so
    [simulation_results_df['solar_power_kw']] at line 193, ahead of the
    loop, raises [KeyError]. *)
Definition create_sankey_chart (simulation_results_df : list hour_result) : option chart :=
  match simulation_results_df with
  | [] => None
  | _ :: _ =>
      f <- sankey_flows simulation_results_df ;;
      Some (build_chart f (total_battery_discharge_gwh simulation_results_df))
  end.

(** A link is drawn between two existing nodes and is above the
    threshold. *)
Definition well_formed_link (c : chart) (l : link) : Prop :=
  let '(s, t, value) := l in
  (s < List.length (labels c))%nat /\ (t < List.length (labels c))%nat /\
  1 # 100 < value.

End Sankey.

(** ** config.py and data_handler.py: the demand series *)

Module DataHandler.

(** config.py lines 21-37: the two daily load patterns, one factor per
    hour of the day. *)
Definition continuous_pattern : list Q :=
  [85 # 100; 82 # 100; 80 # 100; 78 # 100; 76 # 100; 78 # 100;
   85 # 100; 92 # 100; 98 # 100; 1; 1; 1;
   98 # 100; 95 # 100; 98 # 100; 1; 1; 98 # 100;
   95 # 100; 92 # 100; 90 # 100; 88 # 100; 87 # 100; 86 # 100].

Definition day_shift_pattern : list Q :=
  [45 # 100; 40 # 100; 35 # 100; 32 # 100; 30 # 100; 35 # 100;
   50 # 100; 70 # 100; 85 # 100; 95 # 100; 1; 1;
   98 # 100; 95 # 100; 98 # 100; 1; 95 # 100; 85 # 100;
   70 # 100; 60 # 100; 55 # 100; 52 # 100; 48 # 100; 46 # 100].

Definition load_profiles : list (string * list Q) :=
  [("24小时连续生产型"%string, continuous_pattern);
   ("白班为主型"%string, day_shift_pattern)].

(** [get_load_profile_pattern(profile_name)], config.py lines 266-281;
    [None] is its [KeyError]. *)
Fixpoint pattern_of (profiles : list (string * list Q)) (profile_name : string)
  : option (list Q) :=
  match profiles with
  | [] => None
  | (name, pattern) :: rest =>
      if String.eqb name profile_name then Some pattern
      else pattern_of rest profile_name
  end.

Definition get_load_profile_pattern (profile_name : string) : option (list Q) :=
  pattern_of load_profiles profile_name.

(** [np.tile(pattern, reps)]. *)
Fixpoint tile (pattern : list Q) (reps : nat) : list Q :=
  match reps with
  | O => []
  | S reps' => pattern ++ tile pattern reps'
  end.

(** [np.sum]. *)
Definition total (xs : list Q) : Q := fold_right Qplus 0 xs.

(** The hours of the year, 365 days of 24 hours. *)
Definition hours_per_year : nat := 365 * 24.

(** [load_mine_load_profile(profile_name, annual_consumption_gwh)],
    data_handler.py lines 17-70: the daily pattern repeated over the year,
    cut to 8760 hours and scaled to the yearly consumption.  [None] is the
    value returned after an exception. *)
Definition load_mine_load_profile (profile_name : string)
           (annual_consumption_gwh : Q) : option (list Q) :=
  daily_pattern <- get_load_profile_pattern profile_name ;;
  let annual_pattern := firstn hours_per_year (tile daily_pattern 365) in
  let target_total_kwh := annual_consumption_gwh * 1000000 in
  let current_total := total annual_pattern in
  scaling_factor <- Py.div target_total_kwh current_total ;;
  Some (map (fun factor => factor * scaling_factor) annual_pattern).

End DataHandler.

(** ** simulation_engine.py: what the generation functions hand on

    [calculate_solar_power] and [calculate_wind_power] run the libraries
    pvlib and windpowerlib.  What such a run yields is data here: either
    it raises, or it produces a power series in W whose entries may be
    NaN ([None]).  Everything the two functions do around that run is
    modelled. *)

Module Generation.

Inductive library_run : Type :=
| Raises
| Produces (power_w : list (option Q)).

(** [np.zeros(len(weather_data))]. *)
Definition zeros (weather_rows : nat) : list Q := repeat 0 weather_rows.

(** [series.fillna(0)] on one entry. *)
Definition fillna (entry : option Q) : Q :=
  match entry with
  | Some value => value
  | None => 0
  end.

(** [series.clip(lower=0)] on one entry. *)
Definition clip (value : Q) : Q := if Py.lt value 0 then 0 else value.

(** [calculate_solar_power], lines 18-193, for weather data of
    [weather_rows] rows: zero capacity and every exception give the zero
    series; otherwise the AC power is freed of NaN, converted to kW and
    clipped at zero. *)
Definition calculate_solar_power (weather_rows : nat) (pv_capacity_mw : Q)
           (run : library_run) : list Q :=
  if Qle_bool pv_capacity_mw 0 then zeros weather_rows
  else match run with
       | Raises => zeros weather_rows
       | Produces ac_power_w =>
           map (fun entry => clip (fillna entry / 1000)) ac_power_w
       end.

(** config.py lines 119-160: the models of the turbine database. *)
Definition wind_turbine_database : list string :=
  ["Vestas V112 3300"; "Enercon E126 7500"; "Goldwind GW121 2500";
   "Siemens SWT 3000"]%string.

(** [turbine_model in WIND_TURBINE_DATABASE]. *)
Definition known_turbine (turbine_model : string) : bool :=
  existsb (String.eqb turbine_model) wind_turbine_database.

(** [calculate_wind_power], lines 197-273: no turbine, an unknown model
    and every exception give the zero series; otherwise the power of one
    turbine is freed of NaN, multiplied by the number of turbines,
    converted to kW and clipped at zero. *)
Definition calculate_wind_power (weather_rows : nat) (turbine_model : string)
           (num_turbines : Q) (run : library_run) : list Q :=
  if Qle_bool num_turbines 0 then zeros weather_rows
  else if negb (known_turbine turbine_model) then zeros weather_rows
  else match run with
       | Raises => zeros weather_rows
       | Produces power_output_w =>
           map (fun entry => clip (fillna entry * num_turbines / 1000))
               power_output_w
       end.

End Generation.

(** ** validation.py *)

Module Validation.

Local Open Scope string_scope.
Local Open Scope list_scope.

(** The dictionary of sidebar values; only its numeric entries are read
    by the checks. *)
Definition inputs : Type := list (string * Q).

(** [user_inputs[key]] for a key that is present, [None] when
    [key in user_inputs] is false. *)
Fixpoint lookup (user_inputs : inputs) (key : string) : option Q :=
  match user_inputs with
  | [] => None
  | (k, v) :: rest => if String.eqb k key then Some v else lookup rest key
  end.

(** Lines 22-30 and 33-36. *)
Definition critical_numeric_params : list (string * string) :=
  [("annual_consumption", "年总用电量");
   ("pv_capacity", "光伏装机容量");
   ("wind_turbine_count", "风机数量");
   ("battery_capacity", "电池储能容量");
   ("battery_power", "电池最大充放电功率");
   ("grid_purchase_price", "电网购电电价");
   ("grid_sell_price", "上网卖电电价")].

Definition coordinate_params : list (string * string) :=
  [("longitude", "经度"); ("latitude", "纬度")].

(** config.py, section "validation", lines 99-102. *)
Definition max_annual_consumption : Q := 1000.
Definition min_annual_consumption : Q := 1.
Definition max_pv_capacity : Q := 500.
Definition max_wind_turbines : Q := 100.

(** [if condition: messages.append(text)]. *)
Definition said_when (condition : bool) (text : string) : list string :=
  if condition then [text] else [].

(** [if key in user_inputs: value = user_inputs[key]; ...]. *)
Definition for_key (user_inputs : inputs) (key : string)
           (check : Q -> list string) : list string :=
  match lookup user_inputs key with
  | Some value => check value
  | None => []
  end.

(** The two loops of lines 39-50: one message per listed key that is
    present with a negative value. *)
Fixpoint negative_values (params : list (string * string)) (user_inputs : inputs)
         (rest_of_text : string) : list string :=
  match params with
  | [] => []
  | (param_key, param_name) :: later =>
      for_key user_inputs param_key
              (fun value => said_when (Py.lt value 0)
                                      (String.append param_name rest_of_text))
      ++ negative_values later user_inputs rest_of_text
  end.

(** Lines 39-68: the fatal errors, in the order they are appended. *)
Definition errors_of (user_inputs : inputs) : list string :=
  negative_values critical_numeric_params user_inputs " 不能为负数，请重新输入。"
  ++ for_key user_inputs "latitude"
       (fun lat => said_when (Py.lt lat (-90) || Py.gt lat 90)
                             "纬度必须在-90到90度之间。")
  ++ for_key user_inputs "longitude"
       (fun lon => said_when (Py.lt lon (-180) || Py.gt lon 180)
                             "经度必须在-180到180度之间。")
  ++ for_key user_inputs "battery_efficiency"
       (fun efficiency => said_when (Py.gt efficiency 1 || Py.lt efficiency 0)
                                    "电池效率必须在0到1之间 (即0%到100%)。").

(** Lines 106-115: the check of the C-rate, the one place that divides. *)
Definition c_rate_warnings (user_inputs : inputs) : option (list string) :=
  match lookup user_inputs "battery_capacity", lookup user_inputs "battery_power" with
  | Some capacity, Some power =>
      if Py.gt capacity 0 && Py.gt power 0 then
        c_rate <- Py.div power capacity ;;
        Some (if Py.gt c_rate 2 then
                ["电池功率相对于容量过高（C倍率>2），可能不经济，建议检查配置。"]
              else if Py.lt c_rate (1 # 10) then
                ["电池功率相对于容量过低（C倍率<0.1），可能无法有效调节，建议检查配置。"]
              else [])
      else Some []
  | _, _ => Some []
  end.

(** Lines 46-131: the warnings, in the order they are appended. *)
Definition warnings_of (user_inputs : inputs) : option (list string) :=
  c_rate <- c_rate_warnings user_inputs ;;
  Some (
    negative_values coordinate_params user_inputs " 为负数，请确认是否正确。"
    ++ match lookup user_inputs "grid_purchase_price",
             lookup user_inputs "grid_sell_price" with
       | Some purchase_price, Some sell_price =>
           said_when (Py.lt purchase_price sell_price)
                     "通常情况下，购电电价会高于售电电价，请检查您的设置。"
       | _, _ => []
       end
    ++ for_key user_inputs "pv_tilt_angle"
         (fun tilt_angle => said_when (Py.lt tilt_angle 0 || Py.gt tilt_angle 90)
                                      "光伏板倾角通常在0到90度之间。")
    ++ for_key user_inputs "annual_consumption"
         (fun consumption =>
            if Py.gt consumption max_annual_consumption then
              ["年总用电量超过1000 GWh，请确认是否正确。"]
            else if Py.lt consumption min_annual_consumption then
              ["年总用电量小于1 GWh，请确认是否正确。"]
            else [])
    ++ for_key user_inputs "pv_capacity"
         (fun pv_cap => said_when (Py.gt pv_cap max_pv_capacity)
                                  "光伏装机容量超过500 MW，请确认是否正确。")
    ++ for_key user_inputs "wind_turbine_count"
         (fun turbine_count => said_when (Py.gt turbine_count max_wind_turbines)
                                         "风机数量超过100台，请确认是否正确。")
    ++ c_rate
    ++ for_key user_inputs "grid_purchase_price"
         (fun purchase_price =>
            if Py.gt purchase_price 1 then ["购电电价超过$1.0/kWh，请确认是否正确。"]
            else if Py.lt purchase_price (1 # 100) then
              ["购电电价低于$0.01/kWh，请确认是否正确。"]
            else [])
    ++ for_key user_inputs "grid_sell_price"
         (fun sell_price =>
            if Py.gt sell_price (1 # 2) then ["售电电价超过$0.5/kWh，请确认是否正确。"]
            else if Py.lt sell_price (1 # 1000) then
              ["售电电价低于$0.001/kWh，请确认是否正确。"]
            else [])).

(** [validate_inputs(user_inputs)]: the pair [(warnings, errors)]. *)
Definition validate_inputs (user_inputs : inputs)
  : option (list string * list string) :=
  warnings <- warnings_of user_inputs ;;
  Some (warnings, errors_of user_inputs).

End Validation.

(** ** app.py *)

Module App.

(** [main], lines 59 and 76: the run button is disabled as soon as the
    validation says anything, warning or error. *)
Definition run_button_disabled (user_inputs : Validation.inputs) : option bool :=
  checked <- Validation.validate_inputs user_inputs ;;
  let '(input_warnings, input_errors) := checked in
  Some ((0 <? List.length input_warnings)%nat || (0 <? List.length input_errors)%nat).

(** [start_async_simulation], lines 171-174 and 223-234: the call of the
    engine on the series the earlier steps produced.  A key missing from the
    inputs raises [KeyError], a run without ledger raises [ValueError];
    both are [None] here. *)
Definition simulate (user_inputs : Validation.inputs)
           (load_data solar_power wind_power : list Q) : option (list hour_result) :=
  purchase_price <- Validation.lookup user_inputs "grid_purchase_price" ;;
  sell_price <- Validation.lookup user_inputs "grid_sell_price" ;;
  battery_capacity <- Validation.lookup user_inputs "battery_capacity" ;;
  battery_power <- Validation.lookup user_inputs "battery_power" ;;
  run_simulation load_data solar_power wind_power battery_capacity battery_power
                 [("grid_purchase_price"%string, purchase_price);
                  ("grid_sell_price"%string, sell_price)].

End App.

(** ** app.py: the whole computation *)

Module Workflow.

(** What [start_async_simulation] needs besides the numeric inputs: the
    two text choices of the sidebar, the number of rows of weather data
    ([None] when [get_weather_data] returned nothing) and what the two
    library runs yield. *)
Record surroundings : Type := mk_surroundings {
  load_type : string;
  wind_turbine_model : string;
  weather_rows : option nat;
  solar_run : Generation.library_run;
  wind_run : Generation.library_run
}.

(** The body of [start_async_simulation(user_inputs)], lines 157-243, as
    the task manager runs it; the progress reports are left out.  [None]
    is any of its exceptions. *)
Definition start_async_simulation (user_inputs : Validation.inputs)
           (around : surroundings) : option (list hour_result) :=
  purchase_price <- Validation.lookup user_inputs "grid_purchase_price" ;;
  sell_price <- Validation.lookup user_inputs "grid_sell_price" ;;
  annual_consumption <- Validation.lookup user_inputs "annual_consumption" ;;
  load_data <- DataHandler.load_mine_load_profile (load_type around)
                                                  annual_consumption ;;
  latitude <- Validation.lookup user_inputs "latitude" ;;
  longitude <- Validation.lookup user_inputs "longitude" ;;
  analysis_year <- Validation.lookup user_inputs "analysis_year" ;;
  rows <- weather_rows around ;;
  pv_capacity <- Validation.lookup user_inputs "pv_capacity" ;;
  let solar_power :=
    Generation.calculate_solar_power rows pv_capacity (solar_run around) in
  wind_turbine_count <- Validation.lookup user_inputs "wind_turbine_count" ;;
  let wind_power :=
    Generation.calculate_wind_power rows (wind_turbine_model around)
                                    wind_turbine_count (wind_run around) in
  App.simulate user_inputs load_data solar_power wind_power.

End Workflow.

(** The default values of the sidebar, used to exercise the theorems
    about the inputs. *)
Definition demo_inputs : Validation.inputs :=
  [("annual_consumption"%string, 100); ("latitude"%string, 399 # 10);
   ("longitude"%string, 1164 # 10); ("pv_capacity"%string, 50);
   ("wind_turbine_count"%string, 10); ("battery_capacity"%string, 100);
   ("battery_power"%string, 50); ("grid_purchase_price"%string, 15 # 100);
   ("grid_sell_price"%string, 5 # 100); ("analysis_year"%string, 2023)].

(** A year of weather in which the PV model produces a constant 500 kW
    and the wind model fails. *)
Definition demo_surroundings : Workflow.surroundings :=
  {| Workflow.load_type := "白班为主型";
     Workflow.wind_turbine_model := "Vestas V112 3300";
     Workflow.weather_rows := Some (365 * 24)%nat;
     Workflow.solar_run := Generation.Produces (repeat (Some 500000) (365 * 24));
     Workflow.wind_run := Generation.Raises |}.

(** ** Further vocabulary for the engine *)


(** A row in which the battery stands still at [soc] and the grid alone
    settles the net load. *)
Definition grid_only_row (soc : Q) (row : hour_result) : Prop :=
  battery_charge_kw row == 0 /\
  battery_discharge_kw row == 0 /\
  battery_soc_kwh row == soc /\
  grid_buy_kw row == Qmax (net_load_kw row) 0 /\
  grid_sell_kw row == Qmax (- net_load_kw row) 0.

(** ** simulation_engine.py on binary64 numbers

    The engine once more, this time on the numbers the interpreter
    computes with: IEEE 754 binary64, every operation rounded to nearest.
    Python's [float] and numpy's [float64] share this arithmetic, and the
    integers of an integer series enter it unchanged.  The rational model
    above gives the equations the code writes down; what the ledger
    records next to a limit (a bound, a sign) is read off this model. *)

Module Py64.

Import PrimFloat.
Local Open Scope float_scope.

(** The number [0]. *)
Definition zero : float := 0.

(** [a < b], [a > b] and [a <= b]. *)
Definition lt (a b : float) : bool := ltb a b.
Definition gt (a b : float) : bool := ltb b a.
Definition le (a b : float) : bool := leb a b.

(** [a / b]; [None] stands for [ZeroDivisionError]. *)
Definition div (a b : float) : option float :=
  if eqb b 0 then None else Some (a / b).

(** The builtins [min(a, b)] and [min(a, b, c)]. *)
Definition min2 (a b : float) : float := if lt b a then b else a.
Definition min3 (a b c : float) : float := min2 (min2 a b) c.

(** [kwargs.get(key, default)]. *)
Fixpoint get (kwargs : list (string * float)) (key : string) (default : float)
  : float :=
  match kwargs with
  | [] => default
  | (k, v) :: rest => if String.eqb k key then v else get rest key default
  end.

End Py64.

Module FloatEngine.

Import PrimFloat.
Local Open Scope float_scope.

(** The dictionary [hour_result], lines 372-388. *)
Record hour_result : Type := mk_hour_result {
  mine_load_kw : float;
  solar_power_kw : float;
  wind_power_kw : float;
  renewable_total_kw : float;
  net_load_kw : float;
  battery_charge_kw : float;
  battery_discharge_kw : float;
  battery_soc_kwh : float;
  battery_soc_percent : float;
  grid_buy_kw : float;
  grid_sell_kw : float;
  grid_cost_usd : float;
  grid_revenue_usd : float;
  net_grid_cost_usd : float
}.

Record settings : Type := mk_settings {
  grid_purchase_price : float;
  grid_sell_price : float;
  round_trip_efficiency : float;
  battery_capacity_kwh : float;
  battery_power_kw : float
}.

(** Lines 295-301.  The defaults are the doubles Python reads the literals
    [0.15], [0.05] and [0.85] as. *)
Definition read_settings (battery_capacity_mwh battery_power_mw : float)
           (kwargs : list (string * float)) : settings :=
  {| grid_purchase_price :=
       Py64.get kwargs "grid_purchase_price" 0x1.3333333333333p-3;
     grid_sell_price := Py64.get kwargs "grid_sell_price" 0x1.999999999999ap-5;
     round_trip_efficiency :=
       Py64.get kwargs "round_trip_efficiency" 0x1.b333333333333p-1;
     battery_capacity_kwh := battery_capacity_mwh * 1000;
     battery_power_kw := battery_power_mw * 1000 |}.

(** Line 307. *)
Definition initial_soc_kwh (cfg : settings) : float :=
  battery_capacity_kwh cfg * 0.5.

(** Lines 322-362:
    (charge, discharge, new state of charge, grid purchase, grid sale). *)
Definition dispatch (cfg : settings) (soc net_load : float)
  : option (float * float * float * float * float) :=
  if Py64.gt net_load 0 then
    let max_discharge := Py64.min3 (battery_power_kw cfg) soc net_load in
    let discharge := max_discharge in
    let soc' := soc - discharge in
    let remaining_deficit := net_load - discharge in
    let buy := if Py64.gt remaining_deficit 0 then remaining_deficit else 0 in
    Some (0, discharge, soc', buy, 0)
  else
    let excess_power_kw := - net_load in
    headroom <- Py64.div (battery_capacity_kwh cfg - soc)
                         (round_trip_efficiency cfg) ;;
    let max_charge := Py64.min3 (battery_power_kw cfg) headroom excess_power_kw in
    let charge := max_charge in
    let soc' := soc + charge * round_trip_efficiency cfg in
    let remaining_excess := excess_power_kw - charge in
    let sell := if Py64.gt remaining_excess 0 then remaining_excess else 0 in
    Some (charge, 0, soc', 0, sell).

(** The body of the loop, lines 311-388. *)
Definition simulate_hour (cfg : settings) (soc load_kw solar_kw wind_kw : float)
  : option hour_result :=
  let renewable_generation_kw := solar_kw + wind_kw in
  let net := load_kw - renewable_generation_kw in
  flows <- dispatch cfg soc net ;;
  let '(charge, discharge, soc', buy, sell) := flows in
  let cost := buy * grid_purchase_price cfg / 1000 in
  let revenue := sell * grid_sell_price cfg / 1000 in
  ratio <- Py64.div soc' (battery_capacity_kwh cfg) ;;
  Some {| mine_load_kw := load_kw;
          solar_power_kw := solar_kw;
          wind_power_kw := wind_kw;
          renewable_total_kw := renewable_generation_kw;
          net_load_kw := net;
          battery_charge_kw := charge;
          battery_discharge_kw := discharge;
          battery_soc_kwh := soc';
          battery_soc_percent := ratio * 100;
          grid_buy_kw := buy;
          grid_sell_kw := sell;
          grid_cost_usd := cost;
          grid_revenue_usd := revenue;
          net_grid_cost_usd := cost - revenue |}.

(** [for i in range(len(mine_load))]. *)
Fixpoint simulation_loop (cfg : settings)
         (mine_load solar_power wind_power : list float)
         (hours : list nat) (soc : float) : option (list hour_result) :=
  match hours with
  | [] => Some []
  | i :: later =>
      load_kw <- nth_error mine_load i ;;
      solar_kw <- nth_error solar_power i ;;
      wind_kw <- nth_error wind_power i ;;
      row <- simulate_hour cfg soc load_kw solar_kw wind_kw ;;
      rows <- simulation_loop cfg mine_load solar_power wind_power later
                              (battery_soc_kwh row) ;;
      Some (row :: rows)
  end.

(** Lines 393-394. *)
Definition to_frame (results : list hour_result) : option (list hour_result) :=
  match results with
  | [] => None
  | _ :: _ => Some results
  end.

(** [run_simulation] on binary64 series and numbers. *)
Definition run_simulation (mine_load solar_power wind_power : list float)
           (battery_capacity_mwh battery_power_mw : float)
           (kwargs : list (string * float)) : option (list hour_result) :=
  let cfg := read_settings battery_capacity_mwh battery_power_mw kwargs in
  results <- simulation_loop cfg mine_load solar_power wind_power
                             (seq 0 (List.length mine_load)) (initial_soc_kwh cfg) ;;
  to_frame results.

(** A legal storage configuration, and a series without negative values,
    as tests on doubles. *)
Definition valid_settings (cfg : settings) : bool :=
  Py64.le 0 (battery_capacity_kwh cfg) &&
  Py64.le 0 (battery_power_kw cfg) &&
  Py64.lt 0 (round_trip_efficiency cfg) &&
  Py64.le (round_trip_efficiency cfg) 1.

Definition nonnegative (series : list float) : bool :=
  forallb (Py64.le 0) series.

(** Three hours on a battery of 1 MWh and 10 MW with the default
    efficiency [0.85]: a deficit hour that leaves 63 kWh in the battery,
    then two hours with 5000 kW of sun and no demand. *)
Definition refill_load : list float := [437; 0; 0].
Definition refill_solar : list float := [0; 5000; 5000].
Definition refill_wind : list float := [0; 0; 0].
Definition refill_capacity_mwh : float := 1.
Definition refill_power_mw : float := 10.

End FloatEngine.

(** * Properties *)

(** ** Python primitives *)

Lemma lt_true_iff (a b : Q) : Py.lt a b = true <-> a < b.
Proof.
  unfold Py.lt. rewrite negb_true_iff.
  split; intro H.
  - apply Qnot_le_lt. intro Hle. apply Qle_bool_iff in Hle. congruence.
  - destruct (Qle_bool b a) eqn:E; trivial.
    apply Qle_bool_iff in E. exfalso. apply (Qlt_not_le _ _ H E).
Qed.

Lemma lt_false_iff (a b : Q) : Py.lt a b = false <-> b <= a.
Proof.
  unfold Py.lt. rewrite negb_false_iff. apply Qle_bool_iff.
Qed.

Lemma gt_true_iff (a b : Q) : Py.gt a b = true <-> b < a.
Proof. apply lt_true_iff. Qed.

Lemma gt_false_iff (a b : Q) : Py.gt a b = false <-> a <= b.
Proof. apply lt_false_iff. Qed.

Lemma min2_Qmin (a b : Q) : Py.min2 a b == Qmin a b.
Proof.
  unfold Py.min2. destruct (Py.lt b a) eqn:E.
  - apply lt_true_iff in E. symmetry. apply Q.min_r. lra.
  - apply lt_false_iff in E. symmetry. apply Q.min_l. exact E.
Qed.

Lemma min3_Qmin (a b c : Q) : Py.min3 a b c == Qmin a (Qmin b c).
Proof.
  unfold Py.min3. rewrite min2_Qmin, min2_Qmin. symmetry. apply Q.min_assoc.
Qed.

Lemma div_Some (a b q : Q) : Py.div a b = Some q -> ~ b == 0 /\ q = a / b.
Proof.
  unfold Py.div. destruct (Qeq_bool b 0) eqn:E; [discriminate|].
  intro H. injection H as <-. split; trivial.
  intro Hb. apply Qeq_bool_iff in Hb. congruence.
Qed.

Lemma div_defined (a b : Q) : ~ b == 0 -> Py.div a b = Some (a / b).
Proof.
  intro Hb. unfold Py.div. destruct (Qeq_bool b 0) eqn:E; trivial.
  apply Qeq_bool_iff in E. contradiction.
Qed.

Lemma bind_Some {A B : Type} (m : option A) (k : A -> option B) (b : B) :
  Py.bind m k = Some b -> exists a, m = Some a /\ k a = Some b.
Proof.
  destruct m as [a|]; simpl; [|discriminate]. intro H. exists a. auto.
Qed.

Lemma Qmin_cases (a b : Q) :
  (Qmin a b == a /\ a <= b) \/ (Qmin a b == b /\ b <= a).
Proof.
  destruct (Q.min_spec a b) as [[H E] | [H E]]; [left | right]; split; trivial.
  apply Qlt_le_weak. exact H.
Qed.

Ltac min_cases :=
  repeat match goal with
         | |- context [Qmin ?a ?b] =>
             let m := fresh "m" in
             destruct (Qmin_cases a b) as [[? ?] | [? ?]];
             set (m := Qmin a b) in *; clearbody m
         | H : context [Qmin ?a ?b] |- _ =>
             let m := fresh "m" in
             destruct (Qmin_cases a b) as [[? ?] | [? ?]];
             set (m := Qmin a b) in *; clearbody m
         end.

(** ** One hour of dispatch *)

Lemma headroom_nonneg (cap prev eta : Q) :
  0 < eta -> prev <= cap -> 0 <= (cap - prev) / eta.
Proof.
  intros Heta Hprev. apply Qle_shift_div_l; trivial. lra.
Qed.

(** On rationals a charge within the headroom fills the battery at most
    to its capacity.  The cancellation is exact only here; what the
    rounded operations record is computed on [FloatEngine]. *)
Lemma headroom_fits (c cap prev eta : Q) :
  0 < eta -> c <= (cap - prev) / eta -> prev + c * eta <= cap.
Proof.
  intros Heta Hc.
  assert (H1 : c * eta <= (cap - prev) / eta * eta).
  { apply Qmult_le_compat_r; [exact Hc | lra]. }
  assert (H2 : (cap - prev) / eta * eta == cap - prev) by (field; lra).
  lra.
Qed.

Section OneHour.

Variable cfg : settings.

Lemma dispatch_deficit (soc L : Q) (f : Q * Q * Q * Q * Q) :
  0 < L -> dispatch cfg soc L = Some f ->
  let '(charge, discharge, soc', buy, sell) := f in
  discharge == Qmin (battery_power_kw cfg) (Qmin soc L) /\
  soc' == soc - discharge /\ buy == L - discharge /\
  charge == 0 /\ sell == 0.
Proof.
  intros HL. unfold dispatch.
  rewrite (proj2 (gt_true_iff L 0) HL).
  intro H. injection H as <-.
  pose proof (min3_Qmin (battery_power_kw cfg) soc L) as Hmin.
  split; [exact Hmin|]. split; [reflexivity|].
  split; [|split; reflexivity].
  destruct (Py.gt _ 0) eqn:E; [reflexivity|].
  apply gt_false_iff in E.
  rewrite Hmin in E. min_cases; lra.
Qed.

Lemma dispatch_surplus (soc L : Q) (f : Q * Q * Q * Q * Q) :
  L <= 0 -> dispatch cfg soc L = Some f ->
  let '(charge, discharge, soc', buy, sell) := f in
  ~ round_trip_efficiency cfg == 0 /\
  charge == Qmin (battery_power_kw cfg)
                 (Qmin ((battery_capacity_kwh cfg - soc) / round_trip_efficiency cfg)
                       (- L)) /\
  soc' == soc + charge * round_trip_efficiency cfg /\
  sell == - L - charge /\
  discharge == 0 /\ buy == 0.
Proof.
  intros HL. unfold dispatch.
  rewrite (proj2 (gt_false_iff L 0) HL).
  intro H. apply bind_Some in H as (h & Hdiv & H).
  apply div_Some in Hdiv as [Heta ->].
  injection H as <-.
  pose proof (min3_Qmin (battery_power_kw cfg)
                ((battery_capacity_kwh cfg - soc) / round_trip_efficiency cfg)
                (- L)) as Hmin.
  split; [exact Heta|]. split; [exact Hmin|]. split; [reflexivity|].
  split; [|split; reflexivity].
  destruct (Py.gt _ 0) eqn:E; [reflexivity|].
  apply gt_false_iff in E.
  rewrite Hmin in E. min_cases; lra.
Qed.

End OneHour.

Section OneHourRow.

Variable cfg : settings.
Variables soc load_kw solar_kw wind_kw : Q.
Variable row : hour_result.
Hypothesis Hrow : simulate_hour cfg soc load_kw solar_kw wind_kw = Some row.

Let L : Q := load_kw - (solar_kw + wind_kw).

Lemma simulate_hour_fields :
  mine_load_kw row = load_kw /\
  solar_power_kw row = solar_kw /\
  wind_power_kw row = wind_kw /\
  renewable_total_kw row = solar_kw + wind_kw /\
  net_load_kw row = L /\
  dispatch cfg soc L =
    Some (battery_charge_kw row, battery_discharge_kw row, battery_soc_kwh row,
          grid_buy_kw row, grid_sell_kw row) /\
  grid_cost_usd row = grid_buy_kw row * grid_purchase_price cfg / 1000 /\
  grid_revenue_usd row = grid_sell_kw row * grid_sell_price cfg / 1000 /\
  ~ battery_capacity_kwh cfg == 0.
Proof.
  unfold simulate_hour in Hrow. fold L in Hrow.
  apply bind_Some in Hrow as (f & Hf & Hk).
  destruct f as [[[[charge discharge] soc'] buy] sell].
  apply bind_Some in Hk as (ratio & Hratio & Hk).
  apply div_Some in Hratio as [Hcap _].
  injection Hk as <-. simpl. rewrite Hf. tauto.
Qed.

Lemma simulate_hour_policy :
  (0 < L -> deficit_step cfg soc L row) /\
  (L <= 0 -> surplus_step cfg soc L row).
Proof.
  destruct simulate_hour_fields as (_ & _ & _ & _ & _ & Hd & _).
  split; intro HL.
  - apply (dispatch_deficit cfg soc L _ HL) in Hd. exact Hd.
  - apply (dispatch_surplus cfg soc L _ HL) in Hd.
    destruct Hd as (_ & Hd). exact Hd.
Qed.

Lemma simulate_hour_balance :
  load_kw + battery_charge_kw row ==
  (solar_kw + wind_kw) + battery_discharge_kw row + grid_buy_kw row
  - grid_sell_kw row.
Proof.
  destruct simulate_hour_policy as [Hdef Hsur].
  destruct (Qlt_le_dec 0 L) as [HL | HL].
  - destruct (Hdef HL) as (_ & _ & Hb & Hc & Hs). unfold L in *. lra.
  - destruct (Hsur HL) as (_ & _ & Hs & Hd & Hb). unfold L in *. lra.
Qed.

Hypothesis Hcfg : valid_settings cfg.
Hypothesis Hsoc : 0 <= soc /\ soc <= battery_capacity_kwh cfg.

(** In exact arithmetic a row keeps its bounds and its flows are not
    negative. *)
Lemma simulate_hour_bounds : row_bounds cfg row /\ flows_nonnegative row.
Proof.
  destruct Hcfg as (Hcap & Hpow & Heta & _). destruct Hsoc as [Hlo Hhi].
  destruct simulate_hour_policy as [Hdef Hsur].
  unfold row_bounds, flows_nonnegative.
  destruct (Qlt_le_dec 0 L) as [HL | HL].
  - destruct (Hdef HL) as (Hd & Hs & Hb & Hc & He).
    assert (Hd0 : 0 <= battery_discharge_kw row /\
                  battery_discharge_kw row <= battery_power_kw cfg /\
                  battery_discharge_kw row <= soc /\
                  battery_discharge_kw row <= L).
    { rewrite Hd. min_cases; lra. }
    rewrite Hc, He. repeat split; try lra.
  - destruct (Hsur HL) as (Hc & Hs & He & Hd & Hb).
    pose proof (headroom_nonneg _ _ _ Heta Hhi) as Hroom.
    assert (Hc0 : 0 <= battery_charge_kw row /\
                  battery_charge_kw row <= battery_power_kw cfg /\
                  battery_charge_kw row <=
                    (battery_capacity_kwh cfg - soc) / round_trip_efficiency cfg /\
                  battery_charge_kw row <= - L).
    { rewrite Hc. min_cases; lra. }
    destruct Hc0 as (Hc1 & Hc2 & Hc3 & Hc4).
    pose proof (headroom_fits _ _ _ _ Heta Hc3) as Hfit.
    assert (Hgain : 0 <= battery_charge_kw row * round_trip_efficiency cfg).
    { apply Qmult_le_0_compat; lra. }
    rewrite Hd, Hb. repeat split; try lra.
Qed.

End OneHourRow.

(** ** The ledger as a chain of hours *)

Section Ledger.

Variable cfg : settings.
Variables mine_load solar_power wind_power : list Q.

Local Notation "'ledger'" := (ledger_from cfg mine_load solar_power wind_power).
Local Notation "'loop'" := (simulation_loop cfg mine_load solar_power wind_power).

Lemma simulation_loop_ledger (n : nat) :
  forall i soc rows,
    loop (seq i n) soc = Some rows ->
    ledger i soc rows /\ List.length rows = n.
Proof.
  induction n as [|n IH]; intros i soc rows H; simpl in H.
  - injection H as <-. split; [constructor | reflexivity].
  - apply bind_Some in H as (l & Hl & H).
    apply bind_Some in H as (s & Hs & H).
    apply bind_Some in H as (w & Hw & H).
    apply bind_Some in H as (row & Hrow & H).
    apply bind_Some in H as (rest & Hrest & H).
    injection H as <-.
    apply IH in Hrest as [Hrest Hlen].
    split; [econstructor; eassumption | simpl; congruence].
Qed.

(** The loop goes through whenever every hour it visits does. *)
Lemma simulation_loop_defined (n : nat) :
  forall i soc,
    (i + n <= List.length mine_load)%nat ->
    (i + n <= List.length solar_power)%nat ->
    (i + n <= List.length wind_power)%nat ->
    ~ battery_capacity_kwh cfg == 0 ->
    ~ round_trip_efficiency cfg == 0 ->
    exists rows, loop (seq i n) soc = Some rows.
Proof.
  induction n as [|n IH]; intros i soc Hm Hs Hw Hcap Heta; simpl.
  - eauto.
  - destruct (nth_error mine_load i) as [l|] eqn:El;
      [| apply nth_error_None in El; lia].
    destruct (nth_error solar_power i) as [s|] eqn:Es;
      [| apply nth_error_None in Es; lia].
    destruct (nth_error wind_power i) as [w|] eqn:Ew;
      [| apply nth_error_None in Ew; lia].
    simpl.
    assert (Hrow : exists row, simulate_hour cfg soc l s w = Some row).
    { unfold simulate_hour, dispatch.
      destruct (Py.gt _ 0); simpl.
      - rewrite div_defined by exact Hcap. simpl. eauto.
      - rewrite div_defined by exact Heta. simpl.
        rewrite div_defined by exact Hcap. simpl. eauto. }
    destruct Hrow as [row ->]. simpl.
    destruct (IH (S i) (battery_soc_kwh row)) as [rows ->]; trivial; try lia.
    simpl. eauto.
Qed.

(** The loop stops with [IndexError] when a generation series ends
    before the demand series does. *)
Lemma simulation_loop_short (n : nat) :
  forall i soc,
    (0 < n)%nat ->
    (List.length solar_power < i + n)%nat \/
    (List.length wind_power < i + n)%nat ->
    loop (seq i n) soc = None.
Proof.
  induction n as [|n IH]; intros i soc Hn Hshort; simpl.
  - exfalso. lia.
  - destruct (nth_error mine_load i) as [l|] eqn:El; simpl; trivial.
    destruct (nth_error solar_power i) as [s|] eqn:Es; simpl; trivial.
    destruct (nth_error wind_power i) as [w|] eqn:Ew; simpl; trivial.
    destruct (simulate_hour cfg soc l s w) as [row|]; simpl; trivial.
    assert (i < List.length solar_power)%nat
      by (apply nth_error_Some; congruence).
    assert (i < List.length wind_power)%nat
      by (apply nth_error_Some; congruence).
    rewrite IH; trivial; lia.
Qed.

Lemma soc_before_cons (soc : Q) (row : hour_result) (rows : list hour_result)
      (k : nat) :
  (k <= List.length rows)%nat ->
  soc_before soc (row :: rows) (S k) = soc_before (battery_soc_kwh row) rows k.
Proof.
  intro Hk. destruct k as [|j]; simpl; trivial.
  destruct (nth_error rows j) eqn:E; trivial.
  apply nth_error_None in E. lia.
Qed.

(** Row [k] of a ledger is the loop body run at position [i + k] from
    the state of charge the previous row left. *)
Lemma ledger_nth :
  forall i soc rows,
    ledger i soc rows ->
    forall k row,
      nth_error rows k = Some row ->
      exists load_kw solar_kw wind_kw,
        nth_error mine_load (i + k) = Some load_kw /\
        nth_error solar_power (i + k) = Some solar_kw /\
        nth_error wind_power (i + k) = Some wind_kw /\
        simulate_hour cfg (soc_before soc rows k) load_kw solar_kw wind_kw
        = Some row.
Proof.
  induction 1 as [|i soc l s w r rows Hl Hs Hw Hr Hrest IH]; intros k row Hk.
  - destruct k; discriminate.
  - destruct k as [|k].
    + injection Hk as <-. rewrite Nat.add_0_r. exists l, s, w. auto.
    + simpl in Hk. destruct (IH k row Hk) as (l' & s' & w' & H1 & H2 & H3 & H4).
      rewrite soc_before_cons.
      * replace (i + S k)%nat with (S i + k)%nat by lia.
        exists l', s', w'. auto.
      * assert (k < List.length rows)%nat by (apply nth_error_Some; congruence).
        lia.
Qed.

(** In exact arithmetic the state of charge stays inside the battery
    along the whole ledger, and with it every row keeps its bounds. *)
Lemma ledger_bounds :
  valid_settings cfg ->
  forall i soc rows,
    ledger i soc rows ->
    0 <= soc /\ soc <= battery_capacity_kwh cfg ->
    Forall (fun row => row_bounds cfg row /\ flows_nonnegative row) rows.
Proof.
  intros Hcfg. induction 1 as [|i soc l s w r rows Hl Hs Hw Hr Hrest IH];
    intro Hsoc; constructor.
  - exact (simulate_hour_bounds cfg soc l s w r Hr Hcfg Hsoc).
  - apply IH.
    destruct (simulate_hour_bounds cfg soc l s w r Hr Hcfg Hsoc)
      as [(H1 & H2 & _) _].
    auto.
Qed.

End Ledger.

Lemma initial_soc_in_range (cfg : settings) :
  0 <= battery_capacity_kwh cfg ->
  0 <= initial_soc_kwh cfg /\ initial_soc_kwh cfg <= battery_capacity_kwh cfg.
Proof.
  unfold initial_soc_kwh. intro H. split; lra.
Qed.

Lemma run_simulation_ledger (mine_load solar_power wind_power : list Q)
      (cap_mwh pow_mw : Q) (kwargs : list (string * Q))
      (ledger : list hour_result) :
  run_simulation mine_load solar_power wind_power cap_mwh pow_mw kwargs
  = Some ledger ->
  let cfg := read_settings cap_mwh pow_mw kwargs in
  ledger_from cfg mine_load solar_power wind_power 0 (initial_soc_kwh cfg) ledger /\
  List.length ledger = List.length mine_load /\
  ledger <> [].
Proof.
  unfold run_simulation. intro H.
  apply bind_Some in H as (rows & Hloop & Hframe).
  apply simulation_loop_ledger in Hloop as [Hled Hlen].
  destruct rows as [|r rows]; [discriminate|].
  injection Hframe as <-. simpl. repeat split; trivial. discriminate.
Qed.

(** [run_simulation] returns a ledger, one row per demand value, as soon as
    the demand series is not empty, no generation series is shorter than
    it, and neither the capacity nor the efficiency is zero. *)
Lemma run_simulation_defined (mine_load solar_power wind_power : list Q)
      (cap_mwh pow_mw : Q) (kwargs : list (string * Q)) :
  mine_load <> [] ->
  (List.length mine_load <= List.length solar_power)%nat ->
  (List.length mine_load <= List.length wind_power)%nat ->
  ~ cap_mwh == 0 ->
  ~ Py.get kwargs "round_trip_efficiency" (85 # 100) == 0 ->
  exists ledger,
    run_simulation mine_load solar_power wind_power cap_mwh pow_mw kwargs
    = Some ledger /\
    List.length ledger = List.length mine_load.
Proof.
  intros Hne Hs Hw Hcap Heta. unfold run_simulation.
  set (cfg := read_settings cap_mwh pow_mw kwargs).
  destruct (simulation_loop_defined cfg mine_load solar_power wind_power
              (List.length mine_load) 0%nat (initial_soc_kwh cfg))
    as [rows Hrows]; simpl; trivial.
  - intro H. apply Hcap. lra.
  - rewrite Hrows. simpl.
    apply simulation_loop_ledger in Hrows as [_ Hlen].
    destruct rows as [|r rows].
    + destruct mine_load; [contradiction | discriminate].
    + simpl. eauto.
Qed.

Lemma demo_run :
  run_simulation demo_load demo_solar demo_wind (1 # 10) (1 # 10) demo_kwargs
  = Some demo_ledger.
Proof. vm_compute. reflexivity. Defined.

Lemma demo_valid : valid_settings (read_settings (1 # 10) (1 # 10) demo_kwargs).
Proof. unfold valid_settings. simpl. repeat split; lra. Defined.

(** ** The dispatch engine *)

(** C1.  For a legal configuration, in every ledger [run_simulation]
    returns, row [i] is the fixed-priority step from the state of charge left by row [i - 1] (the
    initial one for [i = 0]) on the inputs at position [i]: with net load
    [L = D - (Gs + Gw)], a deficit [L > 0] discharges
    [min(P_max, SoC, L)], lowers the state of charge by that amount, buys
    the rest and neither charges nor sells; otherwise the surplus [- L]
    charges [min(P_max, (C - SoC) / eta, - L)], raises the state of charge
    by the charge times [eta], sells the rest and neither discharges nor
    buys.  The signs of the input series play no part. *)
Theorem dispatch_follows_priority_policy
        (mine_load solar_power wind_power : list Q) (cap_mwh pow_mw : Q)
        (kwargs : list (string * Q)) (ledger : list hour_result)
        (i : nat) (row : hour_result) :
  valid_settings (read_settings cap_mwh pow_mw kwargs) ->
  run_simulation mine_load solar_power wind_power cap_mwh pow_mw kwargs
  = Some ledger ->
  nth_error ledger i = Some row ->
  let cfg := read_settings cap_mwh pow_mw kwargs in
  let prev := soc_before (initial_soc_kwh cfg) ledger i in
  exists D Gs Gw,
    nth_error mine_load i = Some D /\
    nth_error solar_power i = Some Gs /\
    nth_error wind_power i = Some Gw /\
    (0 < D - (Gs + Gw) -> deficit_step cfg prev (D - (Gs + Gw)) row) /\
    (D - (Gs + Gw) <= 0 -> surplus_step cfg prev (D - (Gs + Gw)) row).
Proof.
  intros _ Hrun Hrow cfg prev.
  apply run_simulation_ledger in Hrun as (Hled & _ & _).
  destruct (ledger_nth _ _ _ _ _ _ _ Hled i row Hrow)
    as (D & Gs & Gw & HD & HGs & HGw & Hstep).
  exists D, Gs, Gw.
  split; [exact HD|]. split; [exact HGs|]. split; [exact HGw|].
  exact (simulate_hour_policy _ _ _ _ _ _ Hstep).
Qed.

Lemma dispatch_follows_priority_policy_witness :
  exists row,
    nth_error demo_ledger 1 = Some row /\
    let cfg := read_settings (1 # 10) (1 # 10) demo_kwargs in
    let prev := soc_before (initial_soc_kwh cfg) demo_ledger 1 in
    exists D Gs Gw,
      nth_error demo_load 1 = Some D /\
      nth_error demo_solar 1 = Some Gs /\
      nth_error demo_wind 1 = Some Gw /\
      (0 < D - (Gs + Gw) -> deficit_step cfg prev (D - (Gs + Gw)) row) /\
      (D - (Gs + Gw) <= 0 -> surplus_step cfg prev (D - (Gs + Gw)) row).
Proof.
  eexists. split; [reflexivity|].
  apply (dispatch_follows_priority_policy
           demo_load demo_solar demo_wind (1 # 10) (1 # 10) demo_kwargs
           demo_ledger 1).
  - exact demo_valid.
  - exact demo_run.
  - reflexivity.
Defined.

(** C3.  In every returned ledger each row balances exactly: the demand
    plus the power drawn for charging equals the renewable generation plus
    the discharge plus the grid purchase minus the grid sale,
    [D + charge = R + discharge + import - export]; the efficiency plays
    no part in this identity (it only scales what the charge adds to the
    state of charge). *)
Theorem energy_balance_per_step
        (mine_load solar_power wind_power : list Q) (cap_mwh pow_mw : Q)
        (kwargs : list (string * Q)) (ledger : list hour_result)
        (i : nat) (row : hour_result) :
  run_simulation mine_load solar_power wind_power cap_mwh pow_mw kwargs
  = Some ledger ->
  nth_error ledger i = Some row ->
  exists D Gs Gw,
    nth_error mine_load i = Some D /\
    nth_error solar_power i = Some Gs /\
    nth_error wind_power i = Some Gw /\
    D + battery_charge_kw row ==
    (Gs + Gw) + battery_discharge_kw row + grid_buy_kw row - grid_sell_kw row.
Proof.
  intros Hrun Hrow.
  apply run_simulation_ledger in Hrun as (Hled & _ & _).
  destruct (ledger_nth _ _ _ _ _ _ _ Hled i row Hrow)
    as (D & Gs & Gw & HD & HGs & HGw & Hstep).
  exists D, Gs, Gw.
  split; [exact HD|]. split; [exact HGs|]. split; [exact HGw|].
  exact (simulate_hour_balance _ _ _ _ _ _ Hstep).
Qed.

Lemma energy_balance_per_step_witness :
  exists row,
    nth_error demo_ledger 1 = Some row /\
    exists D Gs Gw,
      nth_error demo_load 1 = Some D /\
      nth_error demo_solar 1 = Some Gs /\
      nth_error demo_wind 1 = Some Gw /\
      D + battery_charge_kw row ==
      (Gs + Gw) + battery_discharge_kw row + grid_buy_kw row - grid_sell_kw row.
Proof.
  eexists. split; [reflexivity|].
  apply (energy_balance_per_step
           demo_load demo_solar demo_wind (1 # 10) (1 # 10) demo_kwargs
           demo_ledger 1).
  - exact demo_run.
  - reflexivity.
Defined.

(** ** Where the engine departs from the specification *)

(** C2.  The bound [SoC <= capacity] is not kept by the ledger.  On a
    battery of 1 MWh and 10 MW with the default efficiency, demand
    437, 0, 0 kW and sun 0, 5000, 5000 kW (a legal configuration and
    non-negative series), the first hour leaves 63 kWh; in the second the
    charge is the headroom [(1000 - 63) / 0.85], and line 357 adds it back
    times [0.85]: in binary64 the result is rounded up, and the recorded state of
    charge is 1000.0000000000001 kWh, above the capacity of 1000 kWh. *)
Theorem binary64_soc_exceeds_capacity :
  let cfg := FloatEngine.read_settings FloatEngine.refill_capacity_mwh
                                       FloatEngine.refill_power_mw [] in
  FloatEngine.valid_settings cfg = true /\
  FloatEngine.nonnegative FloatEngine.refill_load = true /\
  FloatEngine.nonnegative FloatEngine.refill_solar = true /\
  FloatEngine.nonnegative FloatEngine.refill_wind = true /\
  exists row0 row1 row2,
    FloatEngine.run_simulation FloatEngine.refill_load FloatEngine.refill_solar
                               FloatEngine.refill_wind
                               FloatEngine.refill_capacity_mwh
                               FloatEngine.refill_power_mw []
    = Some [row0; row1; row2] /\
    Py64.gt (FloatEngine.battery_soc_kwh row1)
            (FloatEngine.battery_capacity_kwh cfg) = true.
Proof.
  cbv zeta.
  split; [vm_compute; reflexivity|].
  split; [vm_compute; reflexivity|].
  split; [vm_compute; reflexivity|].
  split; [vm_compute; reflexivity|].
  do 3 eexists.
  split; vm_compute; reflexivity.
Qed.

(** C10.  A recorded flow can be negative.  In the run above the third
    hour starts from 1000.0000000000001 kWh, so the headroom
    [(1000 - soc) / 0.85] of line 352 is negative, [min] picks it, and the
    ledger records a charge of -1.3374922084896004e-13 kW. *)
Theorem binary64_charge_goes_negative :
  let cfg := FloatEngine.read_settings FloatEngine.refill_capacity_mwh
                                       FloatEngine.refill_power_mw [] in
  FloatEngine.valid_settings cfg = true /\
  FloatEngine.nonnegative FloatEngine.refill_load = true /\
  FloatEngine.nonnegative FloatEngine.refill_solar = true /\
  FloatEngine.nonnegative FloatEngine.refill_wind = true /\
  exists row0 row1 row2,
    FloatEngine.run_simulation FloatEngine.refill_load FloatEngine.refill_solar
                               FloatEngine.refill_wind
                               FloatEngine.refill_capacity_mwh
                               FloatEngine.refill_power_mw []
    = Some [row0; row1; row2] /\
    Py64.lt (FloatEngine.battery_charge_kw row2) Py64.zero = true.
Proof.
  cbv zeta.
  split; [vm_compute; reflexivity|].
  split; [vm_compute; reflexivity|].
  split; [vm_compute; reflexivity|].
  split; [vm_compute; reflexivity|].
  do 3 eexists.
  split; vm_compute; reflexivity.
Qed.

(** C4.  The cost of an hour is the grid purchase times the purchase price
    divided by 1000, and the revenue the grid sale times the selling price
    divided by 1000: the prices are documented in $/kWh and the flows are
    in kW over one hour, yet line 365 rescales as if the price were in
    $/MWh.  Buying 100 kW at 0.1 $/kWh is recorded as 0.01 $, not 10 $. *)
Theorem grid_cost_off_by_thousand :
  exists row,
    run_simulation [100] [0] [0] 1 0 [("grid_purchase_price"%string, 1 # 10)]
    = Some [row] /\
    grid_buy_kw row == 100 /\
    grid_cost_usd row == 1 # 100 /\
    ~ grid_cost_usd row == grid_buy_kw row * (1 # 10).
Proof.
  eexists. split; [vm_compute; reflexivity|]. simpl.
  split; [reflexivity|]. split; [reflexivity|].
  intro H. vm_compute in H. discriminate.
Qed.

(** Every row of every ledger carries the same scaling. *)
Lemma grid_cost_scaling
      (mine_load solar_power wind_power : list Q) (cap_mwh pow_mw : Q)
      (kwargs : list (string * Q)) (ledger : list hour_result)
      (i : nat) (row : hour_result) :
  run_simulation mine_load solar_power wind_power cap_mwh pow_mw kwargs
  = Some ledger ->
  nth_error ledger i = Some row ->
  let cfg := read_settings cap_mwh pow_mw kwargs in
  grid_cost_usd row = grid_buy_kw row * grid_purchase_price cfg / 1000 /\
  grid_revenue_usd row = grid_sell_kw row * grid_sell_price cfg / 1000.
Proof.
  intros Hrun Hrow cfg.
  apply run_simulation_ledger in Hrun as (Hled & _ & _).
  destruct (ledger_nth _ _ _ _ _ _ _ Hled i row Hrow)
    as (D & Gs & Gw & _ & _ & _ & Hstep).
  destruct (simulate_hour_fields _ _ _ _ _ _ Hstep)
    as (_ & _ & _ & _ & _ & _ & Hcost & Hrev & _).
  auto.
Qed.

(** C6.  Scenario A of the specification (demand 100, no generation, a
    battery of capacity 0 and power 0, efficiency 1, purchase price 0.1)
    does not complete: the state of charge in percent divides by the
    capacity (line 369), the division by zero is caught by the enclosing
    [except], and the run returns no ledger. *)
Theorem scenario_A_returns_no_ledger :
  run_simulation [100] [0] [0] 0 0
                 [("round_trip_efficiency"%string, 1);
                  ("grid_purchase_price"%string, 1 # 10)]
  = None.
Proof. vm_compute. reflexivity. Qed.

(** A battery of capacity zero never yields a ledger. *)
Lemma zero_capacity_returns_no_ledger
      (mine_load solar_power wind_power : list Q) (pow_mw : Q)
      (kwargs : list (string * Q)) :
  run_simulation mine_load solar_power wind_power 0 pow_mw kwargs = None.
Proof.
  destruct (run_simulation mine_load solar_power wind_power 0 pow_mw kwargs)
    as [ledger|] eqn:Hrun; trivial.
  apply run_simulation_ledger in Hrun as (Hled & _ & Hne).
  inversion Hled as [|i soc l s w row rows Hl Hs Hw Hrow Hrest]; subst.
  - contradiction.
  - destruct (simulate_hour_fields _ _ _ _ _ _ Hrow)
      as (_ & _ & _ & _ & _ & _ & _ & _ & Hcap).
    exfalso. apply Hcap. simpl. lra.
Qed.

(** C5, as the code has it.  The engine returns no ledger when the demand
    series is empty or when a generation series is shorter than the demand
    series; nothing is checked before the loop, and a failure part-way
    through discards the rows computed so far. *)
Theorem short_or_empty_series_return_no_ledger
        (mine_load solar_power wind_power : list Q) (cap_mwh pow_mw : Q)
        (kwargs : list (string * Q)) :
  mine_load = [] \/
  (List.length solar_power < List.length mine_load)%nat \/
  (List.length wind_power < List.length mine_load)%nat ->
  run_simulation mine_load solar_power wind_power cap_mwh pow_mw kwargs = None.
Proof.
  intros [-> | Hshort]; [reflexivity|].
  unfold run_simulation.
  rewrite simulation_loop_short; trivial.
  destruct Hshort; lia.
Qed.

Lemma short_or_empty_series_return_no_ledger_witness :
  run_simulation [10; 20; 30] [5; 5] [0; 0; 0] 1 1 [] = None.
Proof.
  apply short_or_empty_series_return_no_ledger.
  right. left. simpl. lia.
Defined.

(** C5 as stated fails: a negative demand value is not rejected, and
    neither is a generation series longer than the demand series; both
    runs return a ledger. *)
Lemma negative_or_longer_series_accepted :
  (exists row,
     run_simulation [-5] [0] [0] 1 1 [] = Some [row] /\
     mine_load_kw row == -5 /\ battery_charge_kw row == 5) /\
  (exists row,
     run_simulation [10] [4; 7; 9] [0] 1 1 [] = Some [row] /\
     solar_power_kw row == 4).
Proof.
  split; eexists; (split; [vm_compute; reflexivity|]); simpl;
    repeat split; reflexivity.
Qed.

(** C7, as the code has it.  The run always starts from one half of the
    capacity: whatever keyword arguments are passed, the first row's state
    of charge is [C / 2] plus what the first hour charged (times the
    efficiency) minus what it discharged. *)
Theorem initial_soc_is_half_capacity
        (mine_load solar_power wind_power : list Q) (cap_mwh pow_mw : Q)
        (kwargs : list (string * Q)) (ledger : list hour_result)
        (row : hour_result) :
  run_simulation mine_load solar_power wind_power cap_mwh pow_mw kwargs
  = Some ledger ->
  nth_error ledger 0 = Some row ->
  battery_soc_kwh row ==
  cap_mwh * 1000 * (1 # 2)
  + battery_charge_kw row * Py.get kwargs "round_trip_efficiency" (85 # 100)
  - battery_discharge_kw row.
Proof.
  intros Hrun Hrow.
  apply run_simulation_ledger in Hrun as (Hled & _ & _).
  destruct (ledger_nth _ _ _ _ _ _ _ Hled 0%nat row Hrow)
    as (D & Gs & Gw & _ & _ & _ & Hstep).
  simpl in Hstep.
  destruct (simulate_hour_policy _ _ _ _ _ _ Hstep) as [Hdef Hsur].
  change (Py.get kwargs "round_trip_efficiency" (85 # 100))
    with (round_trip_efficiency (read_settings cap_mwh pow_mw kwargs)).
  change (cap_mwh * 1000 * (1 # 2))
    with (initial_soc_kwh (read_settings cap_mwh pow_mw kwargs)).
  destruct (Qlt_le_dec 0 (D - (Gs + Gw))) as [HL | HL].
  - destruct (Hdef HL) as (_ & Hsoc & _ & Hc & _). rewrite Hsoc, Hc. ring.
  - destruct (Hsur HL) as (_ & Hsoc & _ & Hd & _). rewrite Hsoc, Hd. ring.
Qed.

Lemma initial_soc_is_half_capacity_witness :
  exists row,
    nth_error demo_ledger 0 = Some row /\
    battery_soc_kwh row ==
    (1 # 10) * 1000 * (1 # 2)
    + battery_charge_kw row * Py.get demo_kwargs "round_trip_efficiency" (85 # 100)
    - battery_discharge_kw row.
Proof.
  eexists. split; [reflexivity|].
  apply (initial_soc_is_half_capacity
           demo_load demo_solar demo_wind (1 # 10) (1 # 10) demo_kwargs
           demo_ledger).
  - exact demo_run.
  - reflexivity.
Defined.

(** C7 as stated fails: on the inputs of scenario B (demand 50, generation
    80, capacity 100 kWh, power 100 kW, efficiency 0.9) the run starts
    half full whatever the caller passes, charges 30 and ends the hour at
    77 kWh, not at 27. *)
Lemma scenario_B_starts_half_full :
  exists row,
    run_simulation [50] [80] [0] (1 # 10) (1 # 10)
                   [("round_trip_efficiency"%string, 9 # 10);
                    ("initial_soc"%string, 0)]
    = Some [row] /\
    battery_charge_kw row == 30 /\
    battery_soc_kwh row == 77 /\
    ~ battery_soc_kwh row == 27.
Proof.
  eexists. split; [vm_compute; reflexivity|]. simpl.
  split; [reflexivity|]. split; [reflexivity|].
  intro H. vm_compute in H. discriminate.
Qed.

(** ** The flow attribution *)

Lemma add_scaled (x m m' r : Q) : m == m' -> x + m * r == x + m' * r.
Proof. intros ->. reflexivity. Qed.

Lemma add_nothing (x m r : Q) : m == 0 -> x == x + m * r.
Proof. intros ->. ring. Qed.

Ltac attribution_case :=
  eexists; split; [reflexivity|];
  cbn [solar_to_load wind_to_load solar_to_battery wind_to_battery
       solar_to_grid wind_to_grid grid_to_load battery_to_load];
  repeat split; try reflexivity;
  first [apply add_scaled | apply add_nothing];
  repeat match goal with x := _ |- _ => clearbody x end;
  min_cases; lra.

Section OneHourAttribution.

Variable acc : flows.
Variable row : hour_result.

Let R : Q := solar_power_kw row + wind_power_kw row.

(** Without renewable generation the hour is skipped, and nothing is
    divided. *)
Lemma attribute_renewables_idle :
  R <= 0 -> attribute_renewables acc row = Some acc.
Proof.
  intro HR. unfold attribute_renewables. fold R.
  rewrite (proj2 (gt_false_iff R 0) HR). reflexivity.
Qed.

Lemma attribute_renewables_active :
  0 < R -> 0 <= battery_charge_kw row -> 0 <= grid_sell_kw row ->
  exists acc',
    attribute_renewables acc row = Some acc' /\
    solar_to_load acc' ==
      solar_to_load acc + renewable_to_load row * share (solar_power_kw row) row /\
    wind_to_load acc' ==
      wind_to_load acc + renewable_to_load row * share (wind_power_kw row) row /\
    solar_to_battery acc' ==
      solar_to_battery acc + renewable_to_charge row * share (solar_power_kw row) row /\
    wind_to_battery acc' ==
      wind_to_battery acc + renewable_to_charge row * share (wind_power_kw row) row /\
    solar_to_grid acc' ==
      solar_to_grid acc + renewable_to_export row * share (solar_power_kw row) row /\
    wind_to_grid acc' ==
      wind_to_grid acc + renewable_to_export row * share (wind_power_kw row) row /\
    grid_to_load acc' = grid_to_load acc /\
    battery_to_load acc' = battery_to_load acc.
Proof.
  intros HR Hc Hs.
  assert (HR0 : ~ R == 0) by lra.
  unfold attribute_renewables. fold R.
  rewrite (proj2 (gt_true_iff R 0) HR).
  rewrite !(div_defined _ R HR0). cbn [Py.bind].
  unfold renewable_to_export, renewable_to_charge, renewable_to_load, share.
  fold R.
  pose proof (min2_Qmin R (mine_load_kw row)) as Hload.
  set (to_load := Py.min2 R (mine_load_kw row)) in *.
  pose proof (min2_Qmin (battery_charge_kw row) (R - to_load)) as Hch.
  destruct (Py.gt (R - to_load) 0) eqn:Erem;
    [apply gt_true_iff in Erem | apply gt_false_iff in Erem].
  - destruct (Py.gt (battery_charge_kw row) 0) eqn:Echarge;
      [apply gt_true_iff in Echarge | apply gt_false_iff in Echarge].
    + set (to_charge := Py.min2 (battery_charge_kw row) (R - to_load)) in *.
      pose proof (min2_Qmin (grid_sell_kw row) (R - to_load - to_charge)) as Hsl.
      destruct (Py.gt (R - to_load - to_charge) 0 && Py.gt (grid_sell_kw row) 0)
               eqn:Esell;
        [apply andb_true_iff in Esell as [E1 E2];
         apply gt_true_iff in E1; apply gt_true_iff in E2
        |apply andb_false_iff in Esell as [E|E]; apply gt_false_iff in E];
        attribution_case.
    + pose proof (min2_Qmin (grid_sell_kw row) (R - to_load)) as Hsl.
      destruct (Py.gt (R - to_load) 0 && Py.gt (grid_sell_kw row) 0)
               eqn:Esell;
        [apply andb_true_iff in Esell as [E1 E2];
         apply gt_true_iff in E1; apply gt_true_iff in E2
        |apply andb_false_iff in Esell as [E|E]; apply gt_false_iff in E];
        attribution_case.
  - attribution_case.
Qed.

End OneHourAttribution.

(** C8.  For a row whose charge and sale are not negative (as every row
    of the engine is), one step of the attribution always succeeds.  When
    the renewable generation [R] of the hour is positive it credits
    [min(R, D)] to the load, then [min(charge, R - min(R, D))] to the
    battery, then the smaller of the sale and what is still left to the
    grid, each split between sun and wind by their shares [G_k / R]; the
    battery and grid amounts together never exceed the remainder.  When
    [R] is not positive the six renewable totals are left as they were and
    nothing is divided. *)
Theorem attribution_by_instantaneous_share (acc : flows) (row : hour_result) :
  0 <= battery_charge_kw row -> 0 <= grid_sell_kw row ->
  exists acc',
    attribute_hour acc row = Some acc' /\
    (0 < solar_power_kw row + wind_power_kw row ->
     solar_to_load acc' ==
       solar_to_load acc + renewable_to_load row * share (solar_power_kw row) row /\
     wind_to_load acc' ==
       wind_to_load acc + renewable_to_load row * share (wind_power_kw row) row /\
     solar_to_battery acc' ==
       solar_to_battery acc + renewable_to_charge row * share (solar_power_kw row) row /\
     wind_to_battery acc' ==
       wind_to_battery acc + renewable_to_charge row * share (wind_power_kw row) row /\
     solar_to_grid acc' ==
       solar_to_grid acc + renewable_to_export row * share (solar_power_kw row) row /\
     wind_to_grid acc' ==
       wind_to_grid acc + renewable_to_export row * share (wind_power_kw row) row /\
     renewable_to_charge row + renewable_to_export row <=
       solar_power_kw row + wind_power_kw row - renewable_to_load row) /\
    (solar_power_kw row + wind_power_kw row <= 0 ->
     solar_to_load acc' = solar_to_load acc /\
     wind_to_load acc' = wind_to_load acc /\
     solar_to_battery acc' = solar_to_battery acc /\
     wind_to_battery acc' = wind_to_battery acc /\
     solar_to_grid acc' = solar_to_grid acc /\
     wind_to_grid acc' = wind_to_grid acc).
Proof.
  intros Hc Hs. unfold attribute_hour.
  destruct (Qlt_le_dec 0 (solar_power_kw row + wind_power_kw row)) as [HR | HR].
  - destruct (attribute_renewables_active acc row HR Hc Hs)
      as (acc' & -> & H1 & H2 & H3 & H4 & H5 & H6 & _).
    eexists. split; [reflexivity|]. cbn. split.
    + intros _. repeat (split; [assumption|]).
      unfold renewable_to_export, renewable_to_charge, renewable_to_load.
      min_cases; lra.
    + intro HR'. exfalso. lra.
  - rewrite (attribute_renewables_idle acc row HR).
    eexists. split; [reflexivity|]. cbn. split.
    + intro HR'. exfalso. lra.
    + intros _. repeat split.
Qed.

Lemma attribution_by_instantaneous_share_witness :
  exists acc',
    attribute_hour no_flows (mk_hour_result 70 40 60 100 (-30) 20 0 68 68 0 10 0 0 0)
    = Some acc' /\
    solar_to_load acc' == 28 /\ wind_to_load acc' == 42 /\
    solar_to_battery acc' == 8 /\ wind_to_battery acc' == 12 /\
    solar_to_grid acc' == 4 /\ wind_to_grid acc' == 6.
Proof.
  destruct (attribution_by_instantaneous_share no_flows
              (mk_hour_result 70 40 60 100 (-30) 20 0 68 68 0 10 0 0 0))
    as (acc' & Hacc & Hactive & _).
  - discriminate.
  - discriminate.
  - exists acc'. split; [exact Hacc|].
    destruct Hactive as (H1 & H2 & H3 & H4 & H5 & H6 & _); [reflexivity|].
    rewrite H1, H2, H3, H4, H5, H6.
    repeat split; vm_compute; reflexivity.
Defined.

(** ** Attribution over a whole ledger *)

Lemma shares_add_up (m s w : Q) :
  ~ s + w == 0 -> m * (s / (s + w)) + m * (w / (s + w)) == m.
Proof. intro H. field. exact H. Qed.

(** A row of the engine, for non-negative inputs and a legal
    configuration, has the shape the attribution relies on. *)
Lemma simulate_hour_dispatched (cfg : settings) (soc l s w : Q) (row : hour_result) :
  valid_settings cfg ->
  0 <= soc /\ soc <= battery_capacity_kwh cfg ->
  0 <= l -> 0 <= s -> 0 <= w ->
  simulate_hour cfg soc l s w = Some row ->
  dispatched_row row.
Proof.
  intros Hcfg Hsoc Hl Hs Hw Hrow.
  destruct (simulate_hour_fields _ _ _ _ _ _ Hrow) as (El & Es & Ew & _).
  destruct (simulate_hour_policy _ _ _ _ _ _ Hrow) as [Hdef Hsur].
  destruct (simulate_hour_bounds _ _ _ _ _ _ Hrow Hcfg Hsoc)
    as [_ (Hc0 & Hd0 & Hb0 & He0)].
  unfold dispatched_row. rewrite El, Es, Ew.
  repeat split; trivial.
  - destruct (Hdef H) as (_ & _ & _ & Hc & _). exact Hc.
  - destruct (Hdef H) as (_ & _ & _ & _ & He). exact He.
  - destruct (Hdef H) as (_ & _ & Hb & _). lra.
  - destruct (Hsur H) as (_ & _ & _ & Hd & _). exact Hd.
  - destruct (Hsur H) as (_ & _ & _ & _ & Hb). exact Hb.
  - destruct (Hsur H) as (_ & _ & He & _). lra.
Qed.

Lemma ledger_dispatched (cfg : settings) (mine_load solar_power wind_power : list Q) :
  valid_settings cfg ->
  nonnegative mine_load -> nonnegative solar_power -> nonnegative wind_power ->
  forall i soc rows,
    ledger_from cfg mine_load solar_power wind_power i soc rows ->
    0 <= soc /\ soc <= battery_capacity_kwh cfg ->
    Forall dispatched_row rows.
Proof.
  intros Hcfg Hm Hs Hw.
  induction 1 as [|i soc l s w r rows Hl Hsol Hwin Hr Hrest IH];
    intro Hsoc; constructor.
  - apply (simulate_hour_dispatched cfg soc l s w); trivial.
    + apply nth_error_In in Hl.
      unfold nonnegative in Hm. rewrite Forall_forall in Hm. auto.
    + apply nth_error_In in Hsol.
      unfold nonnegative in Hs. rewrite Forall_forall in Hs. auto.
    + apply nth_error_In in Hwin.
      unfold nonnegative in Hw. rewrite Forall_forall in Hw. auto.
  - apply IH.
    destruct (simulate_hour_bounds _ _ _ _ _ _ Hr Hcfg Hsoc) as [(H1 & H2 & _) _].
    auto.
Qed.

(** One hour of attribution adds to each destination exactly what the row
    reports for it. *)
Lemma attribute_hour_conserves (acc : flows) (row : hour_result) :
  dispatched_row row ->
  exists acc',
    attribute_hour acc row = Some acc' /\
    into_load acc' == into_load acc + mine_load_kw row /\
    into_battery acc' == into_battery acc + battery_charge_kw row /\
    into_grid acc' == into_grid acc + grid_sell_kw row.
Proof.
  intros (HD & HGs & HGw & Hdef & Hsur).
  set (R := solar_power_kw row + wind_power_kw row) in *.
  set (L := mine_load_kw row - R) in *.
  assert (Hflows : 0 <= battery_charge_kw row /\ 0 <= grid_sell_kw row).
  { destruct (Qlt_le_dec 0 L) as [HL | HL].
    - destruct (Hdef HL) as (Hc & He & _). lra.
    - destruct (Hsur HL) as (_ & _ & Hc & He & _). auto. }
  destruct Hflows as [Hc He].
  unfold attribute_hour, into_load, into_battery, into_grid.
  destruct (Qlt_le_dec 0 R) as [HR | HR].
  - destruct (attribute_renewables_active acc row HR Hc He)
      as (acc' & -> & H1 & H2 & H3 & H4 & H5 & H6 & H7 & H8).
    eexists. split; [reflexivity|]. cbn.
    rewrite H1, H2, H3, H4, H5, H6, H7, H8.
    assert (HR0 : ~ solar_power_kw row + wind_power_kw row == 0)
      by (fold R; lra).
    pose proof (shares_add_up (renewable_to_load row) _ _ HR0) as S1.
    pose proof (shares_add_up (renewable_to_charge row) _ _ HR0) as S2.
    pose proof (shares_add_up (renewable_to_export row) _ _ HR0) as S3.
    unfold share. fold R in S1, S2, S3 |- *.
    assert (T1 : renewable_to_load row + grid_buy_kw row + battery_discharge_kw row
                 == mine_load_kw row).
    { unfold renewable_to_load. fold R.
      destruct (Qlt_le_dec 0 L) as [HL | HL].
      - destruct (Hdef HL) as (_ & _ & Hsum). unfold L in *. min_cases; lra.
      - destruct (Hsur HL) as (Hd & Hb & _). unfold L in *. min_cases; lra. }
    assert (T2 : renewable_to_charge row == battery_charge_kw row).
    { unfold renewable_to_charge, renewable_to_load. fold R.
      destruct (Qlt_le_dec 0 L) as [HL | HL].
      - destruct (Hdef HL) as (Hc0 & _). unfold L in *. min_cases; lra.
      - destruct (Hsur HL) as (_ & _ & _ & _ & Hsum). unfold L in *.
        min_cases; lra. }
    assert (T3 : renewable_to_export row == grid_sell_kw row).
    { unfold renewable_to_export, renewable_to_charge, renewable_to_load. fold R.
      destruct (Qlt_le_dec 0 L) as [HL | HL].
      - destruct (Hdef HL) as (Hc0 & He0 & _). unfold L in *. min_cases; lra.
      - destruct (Hsur HL) as (_ & _ & _ & _ & Hsum). unfold L in *.
        min_cases; lra. }
    repeat split; lra.
  - rewrite (attribute_renewables_idle acc row HR).
    eexists. split; [reflexivity|]. cbn.
    assert (HR0 : R == 0) by (unfold R in *; lra).
    destruct (Qlt_le_dec 0 L) as [HL | HL].
    + destruct (Hdef HL) as (Hc0 & He0 & Hsum). unfold L in *.
      repeat split; lra.
    + destruct (Hsur HL) as (Hd & Hb & _ & _ & Hsum). unfold L in *.
      repeat split; lra.
Qed.

Lemma attribute_rows_conserves (rows : list hour_result) :
  Forall dispatched_row rows ->
  forall acc,
  exists acc',
    attribute_rows acc rows = Some acc' /\
    into_load acc' == into_load acc + column_sum mine_load_kw rows /\
    into_battery acc' == into_battery acc + column_sum battery_charge_kw rows /\
    into_grid acc' == into_grid acc + column_sum grid_sell_kw rows.
Proof.
  induction 1 as [|row rows Hrow Hrows IH]; intro acc; simpl.
  - exists acc. unfold column_sum. simpl. repeat split; ring.
  - destruct (attribute_hour_conserves acc row Hrow)
      as (acc1 & -> & L1 & B1 & G1).
    simpl. destruct (IH acc1) as (acc' & Hacc' & L2 & B2 & G2).
    exists acc'. split; [exact Hacc'|].
    unfold column_sum in *. simpl. repeat split; lra.
Qed.

Lemma to_gwh_sums (acc : flows) :
  into_load (to_gwh acc) == into_load acc / 1000000 /\
  into_battery (to_gwh acc) == into_battery acc / 1000000 /\
  into_grid (to_gwh acc) == into_grid acc / 1000000.
Proof.
  unfold into_load, into_battery, into_grid, to_gwh. cbn.
  repeat split; field.
Qed.

(** C9.  For the ledger of any run on non-negative series with a legal
    configuration, the attribution succeeds and, for each destination, the
    flows credited to it by all its sources add up to the total the ledger
    reports for that destination: sun, wind, grid and battery into the load
    make the total demand; sun and wind into the battery make the total
    charge; sun and wind into the grid make the total sale. *)
Theorem attribution_conserves_destinations
        (mine_load solar_power wind_power : list Q) (cap_mwh pow_mw : Q)
        (kwargs : list (string * Q)) (ledger : list hour_result) :
  valid_settings (read_settings cap_mwh pow_mw kwargs) ->
  nonnegative mine_load -> nonnegative solar_power -> nonnegative wind_power ->
  run_simulation mine_load solar_power wind_power cap_mwh pow_mw kwargs
  = Some ledger ->
  exists f,
    sankey_flows ledger = Some f /\
    into_load f == total_load_consumption_gwh ledger /\
    into_battery f == total_battery_charge_gwh ledger /\
    into_grid f == total_grid_sell_gwh ledger.
Proof.
  intros Hcfg Hm Hs Hw Hrun.
  apply run_simulation_ledger in Hrun as (Hled & _ & _).
  pose proof (ledger_dispatched _ _ _ _ Hcfg Hm Hs Hw _ _ _ Hled
                (initial_soc_in_range _ (proj1 Hcfg))) as Hrows.
  destruct (attribute_rows_conserves ledger Hrows no_flows)
    as (acc & Hacc & L & B & G).
  unfold sankey_flows. rewrite Hacc. simpl.
  exists (to_gwh acc). split; [reflexivity|].
  destruct (to_gwh_sums acc) as (L' & B' & G').
  unfold total_load_consumption_gwh, total_battery_charge_gwh, total_grid_sell_gwh.
  rewrite L', B', G', L, B, G.
  unfold into_load, into_battery, into_grid, no_flows. cbn.
  repeat split; field.
Qed.

Lemma attribution_conserves_destinations_witness :
  exists f,
    sankey_flows demo_ledger = Some f /\
    into_load f == total_load_consumption_gwh demo_ledger /\
    into_battery f == total_battery_charge_gwh demo_ledger /\
    into_grid f == total_grid_sell_gwh demo_ledger.
Proof.
  apply (attribution_conserves_destinations
           demo_load demo_solar demo_wind (1 # 10) (1 # 10) demo_kwargs).
  - exact demo_valid.
  - unfold nonnegative, demo_load. repeat constructor; discriminate.
  - unfold nonnegative, demo_solar. repeat constructor; discriminate.
  - unfold nonnegative, demo_wind. repeat constructor; discriminate.
  - exact demo_run.
Defined.


(** * Further properties of the code *)

(** ** The engine beyond the specification's claims *)

Lemma Qmax_cases (a b : Q) :
  (Qmax a b == a /\ b <= a) \/ (Qmax a b == b /\ a <= b).
Proof.
  destruct (Q.max_spec a b) as [[H E] | [H E]]; [right | left]; split; trivial.
  apply Qlt_le_weak. exact H.
Qed.

(** Every hour moves the state of charge by what it charged, scaled by
    the efficiency, minus what it discharged. *)
Lemma simulate_hour_soc_step (cfg : settings) (soc l s w : Q) (row : hour_result) :
  simulate_hour cfg soc l s w = Some row ->
  battery_soc_kwh row ==
  soc + round_trip_efficiency cfg * battery_charge_kw row - battery_discharge_kw row.
Proof.
  intro Hrow.
  destruct (simulate_hour_policy _ _ _ _ _ _ Hrow) as [Hdef Hsur].
  destruct (Qlt_le_dec 0 (l - (s + w))) as [HL | HL].
  - destruct (Hdef HL) as (_ & Hsoc & _ & Hc & _). rewrite Hsoc, Hc. ring.
  - destruct (Hsur HL) as (_ & Hsoc & _ & Hd & _). rewrite Hsoc, Hd. ring.
Qed.






(** X2.  With a capacity and an efficiency other than zero, the engine
    returns no ledger exactly when the demand series is empty or a
    generation series is shorter than it; and a ledger it returns has one
    row per demand value. *)
Theorem run_simulation_fails_exactly_on_shape
        (mine_load solar_power wind_power : list Q) (cap_mwh pow_mw : Q)
        (kwargs : list (string * Q)) :
  ~ cap_mwh == 0 ->
  ~ Py.get kwargs "round_trip_efficiency" (85 # 100) == 0 ->
  (run_simulation mine_load solar_power wind_power cap_mwh pow_mw kwargs = None <->
   mine_load = [] \/
   (List.length solar_power < List.length mine_load)%nat \/
   (List.length wind_power < List.length mine_load)%nat) /\
  (forall ledger,
      run_simulation mine_load solar_power wind_power cap_mwh pow_mw kwargs
      = Some ledger ->
      List.length ledger = List.length mine_load).
Proof.
  intros Hcap Heta. split.
  - split.
    + intro Hnone.
      destruct mine_load as [|d rest] eqn:Em; [left; reflexivity | right].
      destruct (Nat.lt_ge_cases (List.length solar_power) (List.length (d :: rest)))
        as [Hs | Hs]; [left; exact Hs | right].
      destruct (Nat.lt_ge_cases (List.length wind_power) (List.length (d :: rest)))
        as [Hw | Hw]; [exact Hw | exfalso].
      destruct (run_simulation_defined (d :: rest) solar_power wind_power
                  cap_mwh pow_mw kwargs) as (ledger & Hsome & _);
        trivial; try discriminate.
      congruence.
    + intros [-> | Hshort]; [reflexivity|].
      unfold run_simulation. rewrite simulation_loop_short; trivial.
      destruct Hshort; lia.
  - intros ledger Hrun.
    apply run_simulation_ledger in Hrun as (_ & Hlen & _). exact Hlen.
Qed.

Lemma run_simulation_fails_exactly_on_shape_witness :
  (run_simulation [10; 20] [5] [0; 0] 1 1 [] = None <->
   [10; 20] = [] \/
   (List.length [5] < List.length [10; 20])%nat \/
   (List.length [0; 0] < List.length [10; 20])%nat) /\
  (forall ledger,
      run_simulation [10; 20] [5] [0; 0] 1 1 [] = Some ledger ->
      List.length ledger = List.length [10; 20]).
Proof.
  apply (run_simulation_fails_exactly_on_shape [10; 20] [5] [0; 0] 1 1 []).
  - discriminate.
  - discriminate.
Defined.

(** The loop reads the series only at the positions it visits. *)
Lemma simulation_loop_ext (cfg : settings)
      (mine_load solar_power wind_power mine_load' solar_power' wind_power' : list Q)
      (hours : list nat) :
  (forall i, In i hours ->
             nth_error mine_load' i = nth_error mine_load i /\
             nth_error solar_power' i = nth_error solar_power i /\
             nth_error wind_power' i = nth_error wind_power i) ->
  forall soc,
    simulation_loop cfg mine_load' solar_power' wind_power' hours soc =
    simulation_loop cfg mine_load solar_power wind_power hours soc.
Proof.
  induction hours as [|i later IH]; intros Hsame soc; simpl; trivial.
  destruct (Hsame i (or_introl eq_refl)) as (-> & -> & ->).
  destruct (nth_error mine_load i) as [l|]; simpl; trivial.
  destruct (nth_error solar_power i) as [s|]; simpl; trivial.
  destruct (nth_error wind_power i) as [w|]; simpl; trivial.
  destruct (simulate_hour cfg soc l s w) as [row|]; simpl; trivial.
  rewrite IH; trivial.
  intros j Hj. apply Hsame. right. exact Hj.
Qed.

Lemma nth_error_firstn_below {A : Type} (n i : nat) (l : list A) :
  (i < n)%nat -> nth_error (firstn n l) i = nth_error l i.
Proof.
  intro Hi. rewrite nth_error_firstn.
  destruct (Nat.ltb_spec i n); [reflexivity | lia].
Qed.

(** X3.  Generation values beyond the length of the demand series play no
    part: cutting both generation series down to that length leaves the
    result unchanged. *)
Theorem generation_beyond_demand_is_ignored
        (mine_load solar_power wind_power : list Q) (cap_mwh pow_mw : Q)
        (kwargs : list (string * Q)) :
  run_simulation mine_load
                 (firstn (List.length mine_load) solar_power)
                 (firstn (List.length mine_load) wind_power)
                 cap_mwh pow_mw kwargs
  = run_simulation mine_load solar_power wind_power cap_mwh pow_mw kwargs.
Proof.
  unfold run_simulation. f_equal.
  apply simulation_loop_ext.
  intros i Hi. apply in_seq in Hi.
  repeat split; trivial; apply nth_error_firstn_below; lia.
Qed.

(** Stopping the loop early yields the first rows of the longer run. *)
Lemma simulation_loop_prefix (cfg : settings) (mine_load solar_power wind_power : list Q)
      (n m : nat) :
  forall i soc rows,
    simulation_loop cfg mine_load solar_power wind_power (seq i (n + m)) soc
    = Some rows ->
    simulation_loop cfg mine_load solar_power wind_power (seq i n) soc
    = Some (firstn n rows).
Proof.
  induction n as [|n IH]; intros i soc rows H.
  - reflexivity.
  - simpl in H |- *.
    apply bind_Some in H as (l & El & H). rewrite El. simpl.
    apply bind_Some in H as (s & Es & H). rewrite Es. simpl.
    apply bind_Some in H as (w & Ew & H). rewrite Ew. simpl.
    apply bind_Some in H as (row & Erow & H). rewrite Erow. simpl.
    apply bind_Some in H as (rest & Hrest & H).
    injection H as <-.
    rewrite (IH _ _ _ Hrest). reflexivity.
Qed.

(** X4.  The ledger is causal: running the engine on the first [n] demand
    values only gives the first [n] rows of the full ledger, so no row
    depends on later hours. *)
Theorem earlier_rows_ignore_later_hours
        (mine_load solar_power wind_power : list Q) (cap_mwh pow_mw : Q)
        (kwargs : list (string * Q)) (ledger : list hour_result) (n : nat) :
  (0 < n)%nat ->
  run_simulation mine_load solar_power wind_power cap_mwh pow_mw kwargs
  = Some ledger ->
  run_simulation (firstn n mine_load) solar_power wind_power cap_mwh pow_mw kwargs
  = Some (firstn n ledger).
Proof.
  intros Hn Hrun. unfold run_simulation in *.
  set (cfg := read_settings cap_mwh pow_mw kwargs) in *.
  apply bind_Some in Hrun as (rows & Hloop & Hframe).
  destruct rows as [|r rows]; [discriminate|]. injection Hframe as <-.
  rewrite length_firstn.
  set (k := Nat.min n (List.length mine_load)).
  assert (Hk : (k <= List.length mine_load)%nat) by (unfold k; lia).
  rewrite (simulation_loop_ext cfg mine_load solar_power wind_power
             (firstn n mine_load) solar_power wind_power (seq 0 k)).
  - replace (List.length mine_load) with (k + (List.length mine_load - k))%nat
      in Hloop by lia.
    rewrite (simulation_loop_prefix _ _ _ _ _ _ _ _ _ Hloop). simpl.
    apply simulation_loop_ledger in Hloop as [_ Hlen].
    assert (Hfirst : firstn k (r :: rows) = firstn n (r :: rows)).
    { unfold k. destruct (Nat.le_ge_cases n (List.length mine_load)) as [H | H].
      - rewrite Nat.min_l by exact H. reflexivity.
      - rewrite Nat.min_r by exact H.
        rewrite !firstn_all2; trivial; lia. }
    rewrite Hfirst. destruct n; [lia | reflexivity].
  - intros i Hi. apply in_seq in Hi. repeat split; trivial.
    apply nth_error_firstn_below. unfold k in Hi. lia.
Qed.

Lemma earlier_rows_ignore_later_hours_witness :
  run_simulation (firstn 2 demo_load) demo_solar demo_wind (1 # 10) (1 # 10) demo_kwargs
  = Some (firstn 2 demo_ledger).
Proof.
  apply earlier_rows_ignore_later_hours.
  - lia.
  - exact demo_run.
Defined.

Lemma ledger_grid_only (cfg : settings) (mine_load solar_power wind_power : list Q) :
  valid_settings cfg ->
  battery_power_kw cfg == 0 ->
  forall soc0 i soc rows,
    ledger_from cfg mine_load solar_power wind_power i soc rows ->
    0 <= soc /\ soc <= battery_capacity_kwh cfg ->
    soc == soc0 ->
    Forall (grid_only_row soc0) rows.
Proof.
  intros Hcfg Hpow soc0.
  induction 1 as [|i soc l s w r rows Hl Hs Hw Hr Hrest IH];
    intros Hsoc Hsame; constructor.
  - destruct (simulate_hour_bounds _ _ _ _ _ _ Hr Hcfg Hsoc)
      as [(_ & _ & Hc & Hd & _) (Hc0 & Hd0 & _)].
    destruct (simulate_hour_fields _ _ _ _ _ _ Hr) as (_ & _ & _ & _ & Enet & _).
    destruct (simulate_hour_policy _ _ _ _ _ _ Hr) as [Hdef Hsur].
    pose proof (simulate_hour_soc_step _ _ _ _ _ _ Hr) as Hstep.
    assert (Ec : battery_charge_kw r == 0) by lra.
    assert (Ed : battery_discharge_kw r == 0) by lra.
    unfold grid_only_row. rewrite Enet.
    split; [exact Ec|]. split; [exact Ed|].
    split; [rewrite Hstep, Ec, Ed, Hsame; ring|].
    destruct (Qlt_le_dec 0 (l - (s + w))) as [HL | HL].
    + destruct (Hdef HL) as (_ & _ & Hb & _ & He).
      split.
      * destruct (Qmax_cases (l - (s + w)) 0) as [[E _] | [E H]]; rewrite E; lra.
      * destruct (Qmax_cases (- (l - (s + w))) 0) as [[E H] | [E _]]; rewrite E; lra.
    + destruct (Hsur HL) as (_ & _ & He & _ & Hb).
      split.
      * destruct (Qmax_cases (l - (s + w)) 0) as [[E H] | [E _]]; rewrite E; lra.
      * destruct (Qmax_cases (- (l - (s + w))) 0) as [[E _] | [E H]]; rewrite E; lra.
  - destruct (simulate_hour_bounds _ _ _ _ _ _ Hr Hcfg Hsoc)
      as [(Hlo & Hhi & Hc & Hd & _) (Hc0 & Hd0 & _)].
    pose proof (simulate_hour_soc_step _ _ _ _ _ _ Hr) as Hstep.
    apply IH; [auto|].
    assert (Ec : battery_charge_kw r == 0) by lra.
    assert (Ed : battery_discharge_kw r == 0) by lra.
    rewrite Hstep, Ec, Ed, Hsame. ring.
Qed.

(** X6.  A battery with power limit zero stands still: for a legal
    configuration with [battery_power_mw = 0] every row charges and
    discharges nothing, keeps the state of charge at half the capacity,
    buys the whole deficit from the grid and sells the whole surplus. *)
Theorem zero_power_leaves_everything_to_the_grid
        (mine_load solar_power wind_power : list Q) (cap_mwh : Q)
        (kwargs : list (string * Q)) (ledger : list hour_result)
        (i : nat) (row : hour_result) :
  valid_settings (read_settings cap_mwh 0 kwargs) ->
  run_simulation mine_load solar_power wind_power cap_mwh 0 kwargs = Some ledger ->
  nth_error ledger i = Some row ->
  grid_only_row (cap_mwh * 1000 * (1 # 2)) row.
Proof.
  intros Hcfg Hrun Hrow.
  apply run_simulation_ledger in Hrun as (Hled & _ & _).
  assert (Hall : Forall (grid_only_row (cap_mwh * 1000 * (1 # 2))) ledger).
  { assert (Hpow : battery_power_kw (read_settings cap_mwh 0 kwargs) == 0)
      by (simpl; ring).
    apply (ledger_grid_only _ _ _ _ Hcfg Hpow _ _ _ _ Hled).
    - apply initial_soc_in_range. exact (proj1 Hcfg).
    - reflexivity. }
  rewrite Forall_forall in Hall. apply Hall. eapply nth_error_In. exact Hrow.
Qed.

Lemma zero_power_leaves_everything_to_the_grid_witness :
  exists ledger row,
    run_simulation [50; 10] [20; 30] [0; 0] 1 0 [] = Some ledger /\
    nth_error ledger 1 = Some row /\
    grid_only_row (1 * 1000 * (1 # 2)) row.
Proof.
  destruct (run_simulation [50; 10] [20; 30] [0; 0] 1 0 []) as [ledger|] eqn:Hrun;
    [|vm_compute in Hrun; discriminate].
  destruct (nth_error ledger 1) as [row|] eqn:Hrow;
    [|vm_compute in Hrun; injection Hrun as <-; discriminate].
  exists ledger, row. split; [reflexivity|]. split; [exact Hrow|].
  apply (zero_power_leaves_everything_to_the_grid
           [50; 10] [20; 30] [0; 0] 1 [] ledger 1 row); trivial.
  unfold valid_settings. simpl. repeat split; lra.
Defined.

(** ** The yearly indicators *)

Lemma column_sum_cons (column : hour_result -> Q) (row : hour_result)
      (rows : list hour_result) :
  column_sum column (row :: rows) = column row + column_sum column rows.
Proof. reflexivity. Qed.

Lemma div_million (x : Q) : x / 1000000 == x * (1 # 1000000).
Proof. field. Qed.

(** A guarded percentage is always defined: the quotient is taken only
    over a positive denominator. *)
Lemma percent_of_defined (num den : Q) :
  exists p,
    Kpi.percent_of num den = Some p /\
    (0 < den -> p == num / den * 100) /\
    (den <= 0 -> p = 0).
Proof.
  unfold Kpi.percent_of. destruct (Py.gt den 0) eqn:E.
  - apply gt_true_iff in E.
    rewrite div_defined by lra. simpl.
    eexists. split; [reflexivity|]. split; [reflexivity|]. intro. lra.
  - apply gt_false_iff in E.
    eexists. split; [reflexivity|]. split; [intro; lra | reflexivity].
Qed.

(** On the frame built from no row [calculate_kpis] returns its empty
    dictionary. *)
Lemma calculate_kpis_without_rows (economic_params : list (string * Q)) :
  Kpi.calculate_kpis [] economic_params = None.
Proof. reflexivity. Qed.

(** [calculate_kpis] goes through on every frame that has a row. *)
Lemma calculate_kpis_defined
      (results_df : list hour_result) (economic_params : list (string * Q)) :
  results_df <> [] ->
  exists k, Kpi.calculate_kpis results_df economic_params = Some k.
Proof.
  intro Hrows.
  destruct results_df as [|first rest]; [contradiction|].
  unfold Kpi.calculate_kpis. cbv iota. clear Hrows.
  generalize (first :: rest) as results_df. intro results_df.
  repeat match goal with
         | |- context [Kpi.percent_of ?n ?d] =>
             let p := fresh "p" in
             let E := fresh "E" in
             destruct (percent_of_defined n d) as (p & E & _);
             rewrite E; clear E; cbn [Py.bind]
         end.
  destruct (Kpi.series_max (map battery_soc_kwh results_df)) as [top|];
    [|cbn [Py.bind]; eauto].
  destruct (Py.gt top 0) eqn:E; [|cbn [Py.bind]; eauto].
  apply gt_true_iff in E.
  rewrite div_defined; [cbn [Py.bind]; eauto|].
  intro H. assert (top / 1000000 * 1000000 == top) by field. lra.
Qed.

Lemma percent_of_zero (num den p : Q) :
  Kpi.percent_of num den = Some p -> den <= 0 -> p = 0.
Proof.
  intros Hp Hden.
  destruct (percent_of_defined num den) as (p' & Hp' & _ & Hzero).
  rewrite Hp in Hp'. injection Hp' as <-. auto.
Qed.

(** X7.  [calculate_kpis] never divides by zero: on a frame with at least
    one row, whatever the rows, every quotient is guarded by its
    denominator being positive, so the function returns its dictionary;
    and an indicator whose denominator is not positive is reported as 0
    (penetration and grid dependency without consumption, self-consumption
    without generation, battery efficiency without charge). *)
Theorem calculate_kpis_guards_its_quotients
        (results_df : list hour_result) (economic_params : list (string * Q)) :
  results_df <> [] ->
  exists k,
    Kpi.calculate_kpis results_df economic_params = Some k /\
    (Kpi.total_consumption_gwh k <= 0 ->
     Kpi.renewable_penetration k = 0 /\ Kpi.grid_dependency k = 0) /\
    (Kpi.total_renewable_generation_gwh k <= 0 ->
     Kpi.renewable_self_consumption k = 0) /\
    (Kpi.total_battery_charge_gwh k <= 0 -> Kpi.battery_efficiency k = 0).
Proof.
  intro Hrows.
  destruct (calculate_kpis_defined results_df economic_params Hrows) as [k Hk].
  exists k. split; [exact Hk|].
  destruct results_df as [|first rest]; [contradiction|].
  unfold Kpi.calculate_kpis in Hk. cbv iota in Hk.
  apply bind_Some in Hk as (pen & Epen & Hk).
  apply bind_Some in Hk as (self & Eself & Hk).
  apply bind_Some in Hk as (dep & Edep & Hk).
  apply bind_Some in Hk as (eff & Eeff & Hk).
  apply bind_Some in Hk as (cyc & Ecyc & Hk).
  injection Hk as <-. cbn.
  split; [|split].
  - intro H. split; eapply percent_of_zero; eassumption.
  - intro H. eapply percent_of_zero; eassumption.
  - intro H. eapply percent_of_zero; eassumption.
Qed.

Lemma calculate_kpis_guards_its_quotients_witness :
  exists k,
    Kpi.calculate_kpis demo_ledger [] = Some k /\
    (Kpi.total_consumption_gwh k <= 0 ->
     Kpi.renewable_penetration k = 0 /\ Kpi.grid_dependency k = 0) /\
    (Kpi.total_renewable_generation_gwh k <= 0 ->
     Kpi.renewable_self_consumption k = 0) /\
    (Kpi.total_battery_charge_gwh k <= 0 -> Kpi.battery_efficiency k = 0).
Proof.
  apply (calculate_kpis_guards_its_quotients demo_ledger []).
  discriminate.
Defined.

Lemma simulate_hour_net (cfg : settings) (soc l s w : Q) (row : hour_result) :
  simulate_hour cfg soc l s w = Some row ->
  net_grid_cost_usd row = grid_cost_usd row - grid_revenue_usd row.
Proof.
  unfold simulate_hour. intro H.
  apply bind_Some in H as (f & Hf & Hk).
  destruct f as [[[[charge discharge] soc'] buy] sell].
  apply bind_Some in Hk as (ratio & Hratio & Hk).
  injection Hk as <-. reflexivity.
Qed.

(** What every row of a ledger satisfies, whatever the inputs. *)
Lemma ledger_rows_balanced (cfg : settings) (mine_load solar_power wind_power : list Q) :
  forall i soc rows,
    ledger_from cfg mine_load solar_power wind_power i soc rows ->
    Forall (fun row =>
              mine_load_kw row + battery_charge_kw row ==
                solar_power_kw row + wind_power_kw row + battery_discharge_kw row
                + grid_buy_kw row - grid_sell_kw row /\
              net_grid_cost_usd row = grid_cost_usd row - grid_revenue_usd row)
           rows.
Proof.
  induction 1 as [|i soc l s w r rows Hl Hs Hw Hr Hrest IH]; constructor; trivial.
  split.
  - destruct (simulate_hour_fields _ _ _ _ _ _ Hr) as (-> & -> & -> & _).
    exact (simulate_hour_balance _ _ _ _ _ _ Hr).
  - exact (simulate_hour_net _ _ _ _ _ _ Hr).
Qed.

Lemma balanced_rows_sum (rows : list hour_result) :
  Forall (fun row =>
            mine_load_kw row + battery_charge_kw row ==
              solar_power_kw row + wind_power_kw row + battery_discharge_kw row
              + grid_buy_kw row - grid_sell_kw row /\
            net_grid_cost_usd row = grid_cost_usd row - grid_revenue_usd row)
         rows ->
  column_sum mine_load_kw rows + column_sum battery_charge_kw rows ==
    column_sum solar_power_kw rows + column_sum wind_power_kw rows
    + column_sum battery_discharge_kw rows
    + column_sum grid_buy_kw rows - column_sum grid_sell_kw rows /\
  column_sum net_grid_cost_usd rows ==
    column_sum grid_cost_usd rows - column_sum grid_revenue_usd rows.
Proof.
  induction 1 as [|row rows [Hbal Hnet] Hrows [IH1 IH2]].
  - unfold column_sum. simpl. split; ring.
  - rewrite !column_sum_cons. rewrite Hnet. split; lra.
Qed.

(** X8.  The indicators of a ledger of the engine balance over the year:
    total consumption plus total battery charge equals total renewable
    generation plus total battery discharge plus total grid purchase minus
    total grid sale; and the net grid cost is the sum of the ledger's
    column of hourly net costs. *)
Theorem yearly_indicators_balance
        (mine_load solar_power wind_power : list Q) (cap_mwh pow_mw : Q)
        (kwargs economic_params : list (string * Q)) (ledger : list hour_result) :
  run_simulation mine_load solar_power wind_power cap_mwh pow_mw kwargs
  = Some ledger ->
  exists k,
    Kpi.calculate_kpis ledger economic_params = Some k /\
    Kpi.total_consumption_gwh k + Kpi.total_battery_charge_gwh k ==
      Kpi.total_renewable_generation_gwh k + Kpi.total_battery_discharge_gwh k
      + Kpi.total_grid_purchase_gwh k - Kpi.total_grid_sell_gwh k /\
    Kpi.net_grid_cost k == column_sum net_grid_cost_usd ledger.
Proof.
  intro Hrun.
  apply run_simulation_ledger in Hrun as (Hled & _ & Hrows).
  destruct (balanced_rows_sum ledger (ledger_rows_balanced _ _ _ _ _ _ _ Hled))
    as [Hbal Hnet].
  destruct (calculate_kpis_defined ledger economic_params Hrows) as [k Hk].
  exists k. split; [exact Hk|].
  clear Hled.
  destruct ledger as [|first rest]; [contradiction|].
  unfold Kpi.calculate_kpis in Hk. cbv iota in Hk. clear Hrows.
  remember (first :: rest) as ledger eqn:Eledger. clear Eledger.
  repeat match type of Hk with
         | Py.bind ?m _ = Some _ =>
             let x := fresh "x" in
             let E := fresh "E" in
             apply bind_Some in Hk as (x & E & Hk)
         end.
  injection Hk as <-. cbn.
  split; [|lra].
  rewrite !div_million. lra.
Qed.

Lemma yearly_indicators_balance_witness :
  exists k,
    Kpi.calculate_kpis demo_ledger [] = Some k /\
    Kpi.total_consumption_gwh k + Kpi.total_battery_charge_gwh k ==
      Kpi.total_renewable_generation_gwh k + Kpi.total_battery_discharge_gwh k
      + Kpi.total_grid_purchase_gwh k - Kpi.total_grid_sell_gwh k /\
    Kpi.net_grid_cost k == column_sum net_grid_cost_usd demo_ledger.
Proof.
  apply (yearly_indicators_balance
           demo_load demo_solar demo_wind (1 # 10) (1 # 10) demo_kwargs []).
  exact demo_run.
Defined.

(** ** The Sankey chart *)

(** The renewable part of the attribution never divides by zero and never
    touches the totals of the grid and the battery. *)
Lemma attribute_renewables_defined (acc : flows) (row : hour_result) :
  exists acc',
    attribute_renewables acc row = Some acc' /\
    grid_to_load acc' = grid_to_load acc /\
    battery_to_load acc' = battery_to_load acc.
Proof.
  unfold attribute_renewables.
  destruct (Py.gt (solar_power_kw row + wind_power_kw row) 0) eqn:ER;
    [|eauto].
  apply gt_true_iff in ER.
  assert (HR : ~ solar_power_kw row + wind_power_kw row == 0) by lra.
  rewrite !(div_defined _ _ HR). cbn [Py.bind].
  destruct (Py.gt _ 0); [|eauto].
  destruct (Py.gt (battery_charge_kw row) 0);
    match goal with
    | |- context [if ?c then _ else _] => destruct c
    end; eauto.
Qed.

Lemma attribute_rows_defined (rows : list hour_result) :
  forall acc,
  exists acc',
    attribute_rows acc rows = Some acc' /\
    grid_to_load acc' == grid_to_load acc + column_sum grid_buy_kw rows /\
    battery_to_load acc' ==
      battery_to_load acc + column_sum battery_discharge_kw rows.
Proof.
  induction rows as [|row rows IH]; intro acc; simpl.
  - exists acc. unfold column_sum. simpl. repeat split; ring.
  - unfold attribute_hour.
    destruct (attribute_renewables_defined acc row) as (acc1 & -> & Hg & Hb).
    cbn [Py.bind].
    match goal with
    | |- context [attribute_rows ?a rows] =>
        destruct (IH a) as (acc' & Hacc' & Hg' & Hb')
    end.
    exists acc'. split; [exact Hacc'|].
    cbn in Hg', Hb'. rewrite Hg in Hg'. rewrite Hb in Hb'.
    rewrite !column_sum_cons. split; lra.
Qed.

Lemma sankey_flows_defined (df : list hour_result) :
  exists f,
    sankey_flows df = Some f /\
    grid_to_load f == total_grid_purchase_gwh df /\
    battery_to_load f == total_battery_discharge_gwh df.
Proof.
  unfold sankey_flows.
  destruct (attribute_rows_defined df no_flows) as (acc & -> & Hg & Hb).
  cbn [Py.bind]. eexists. split; [reflexivity|].
  unfold total_grid_purchase_gwh, total_battery_discharge_gwh. cbn.
  cbn in Hg, Hb. rewrite Hg, Hb. split; field.
Qed.

Lemma add_link_keeps (P : Sankey.link -> Prop) (so_far : list Sankey.link)
      (s t : nat) (value : Q) :
  Forall P so_far ->
  (1 # 100 < value -> P (s, t, value)) ->
  Forall P (Sankey.add_link so_far s t value).
Proof.
  intros Hso Hnew. unfold Sankey.add_link.
  destruct (Py.gt value (1 # 100)) eqn:E; trivial.
  apply gt_true_iff in E.
  apply Forall_app. split; trivial. constructor; auto.
Qed.

(** On the frame built from no row [create_sankey_chart] falls back to
    its empty figure. *)
Lemma create_sankey_chart_without_rows :
  Sankey.create_sankey_chart [] = None.
Proof. reflexivity. Qed.

(** X11.  [create_sankey_chart] builds its chart for every frame with at
    least one row (the attribution never divides by zero), and every link
    of the chart joins two nodes that exist in the list of labels and
    carries more than the threshold of 0.01. *)
Theorem sankey_chart_is_well_formed (df : list hour_result) :
  df <> [] ->
  exists c,
    Sankey.create_sankey_chart df = Some c /\
    Forall (Sankey.well_formed_link c) (Sankey.links c).
Proof.
  intro Hrows.
  destruct df as [|first rest]; [contradiction|].
  unfold Sankey.create_sankey_chart. cbv iota. clear Hrows.
  generalize (first :: rest) as df. intro df.
  destruct (sankey_flows_defined df) as (f & -> & _). cbn [Py.bind].
  eexists. split; [reflexivity|].
  unfold Sankey.build_chart.
  destruct (Py.gt (battery_to_load f) (1 # 100)) eqn:E; cbn [Sankey.links].
  - apply gt_true_iff in E.
    apply Forall_app. split.
    + repeat (apply add_link_keeps;
              [|intro; unfold Sankey.well_formed_link; cbn; repeat split; (lia || assumption)]).
      constructor.
    + constructor; [|constructor].
      unfold Sankey.well_formed_link. cbn. repeat split; (lia || assumption).
  - repeat (apply add_link_keeps;
            [|intro; unfold Sankey.well_formed_link; cbn; repeat split; (lia || assumption)]).
    constructor.
Qed.

Lemma sankey_chart_is_well_formed_witness :
  exists c,
    Sankey.create_sankey_chart demo_ledger = Some c /\
    Forall (Sankey.well_formed_link c) (Sankey.links c).
Proof.
  apply (sankey_chart_is_well_formed demo_ledger).
  discriminate.
Defined.

Lemma In_add_link (so_far : list Sankey.link) (s t : nat) (value : Q) (l : Sankey.link) :
  In l (Sankey.add_link so_far s t value) -> In l so_far \/ l = (s, t, value).
Proof.
  unfold Sankey.add_link. destruct (Py.gt value (1 # 100)); auto.
  intro H. apply in_app_or in H as [H | [H | []]]; auto.
Qed.

(** X12.  The discharge node of the chart appears exactly when the yearly
    battery discharge of the ledger exceeds 0.01 GWh.  It then receives
    the whole discharge from the charge node and passes the same amount
    on to the load; otherwise the chart keeps its six nodes and no link
    touches a seventh. *)
Theorem discharge_node_carries_the_yearly_discharge
        (df : list hour_result) (c : Sankey.chart) :
  Sankey.create_sankey_chart df = Some c ->
  (1 # 100 < total_battery_discharge_gwh df ->
   List.length (Sankey.labels c) = 7%nat /\
   In (4%nat, 6%nat, total_battery_discharge_gwh df) (Sankey.links c) /\
   exists v, v == total_battery_discharge_gwh df /\
             In (6%nat, 3%nat, v) (Sankey.links c)) /\
  (total_battery_discharge_gwh df <= 1 # 100 ->
   Sankey.labels c = Sankey.base_labels /\
   forall s t v, In (s, t, v) (Sankey.links c) -> (s < 6)%nat /\ (t < 6)%nat).
Proof.
  intro H.
  destruct df as [|first rest]; [discriminate|].
  unfold Sankey.create_sankey_chart in H. cbv iota in H.
  remember (first :: rest) as df eqn:Edf. clear Edf.
  destruct (sankey_flows_defined df) as (f & Ef & _ & Hb).
  rewrite Ef in H. cbn [Py.bind] in H.
  injection H as <-.
  unfold Sankey.build_chart.
  destruct (Py.gt (battery_to_load f) (1 # 100)) eqn:E;
    [apply gt_true_iff in E | apply gt_false_iff in E];
    cbn [Sankey.links Sankey.labels]; split; intro Hd; try (exfalso; lra).
  - split; [reflexivity|]. split.
    + apply in_or_app. left. unfold Sankey.add_link at 1.
      rewrite (proj2 (gt_true_iff _ _) Hd).
      apply in_or_app. right. left. reflexivity.
    + exists (battery_to_load f). split; [exact Hb|].
      apply in_or_app. right. left. reflexivity.
  - split; [reflexivity|].
    intros s t v Hin.
    repeat (apply In_add_link in Hin as [Hin | Hin];
            [|injection Hin as -> -> _; lia]).
    destruct Hin.
Qed.

Lemma discharge_node_carries_the_yearly_discharge_witness :
  exists c,
    Sankey.create_sankey_chart
      [mk_hour_result 30000 0 0 0 30000 0 30000 0 0 0 0 0 0 0] = Some c /\
    List.length (Sankey.labels c) = 7%nat /\
    exists v, v == 3 # 100 /\ In (6%nat, 3%nat, v) (Sankey.links c).
Proof.
  destruct (Sankey.create_sankey_chart
              [mk_hour_result 30000 0 0 0 30000 0 30000 0 0 0 0 0 0 0])
    as [c|] eqn:Hc; [|vm_compute in Hc; discriminate].
  exists c. split; [reflexivity|].
  destruct (discharge_node_carries_the_yearly_discharge _ c Hc) as [Hbig _].
  destruct Hbig as (Hlen & _ & v & Hv & Hin).
  - vm_compute. reflexivity.
  - split; [exact Hlen|]. exists v. split; [|exact Hin].
    rewrite Hv. vm_compute. reflexivity.
Defined.

(** ** Input validation and the run button *)

Lemma app_nil_iff {A : Type} (l l' : list A) :
  l ++ l' = [] <-> l = [] /\ l' = [].
Proof.
  split.
  - apply app_eq_nil.
  - intros [-> ->]. reflexivity.
Qed.

Lemma said_when_nil (condition : bool) (text : string) :
  Validation.said_when condition text = [] <-> condition = false.
Proof.
  unfold Validation.said_when. destruct condition; split; congruence.
Qed.

Lemma for_key_nil (user_inputs : Validation.inputs) (key : string)
      (check : Q -> list string) :
  Validation.for_key user_inputs key check = [] <->
  (forall value, Validation.lookup user_inputs key = Some value -> check value = []).
Proof.
  unfold Validation.for_key.
  destruct (Validation.lookup user_inputs key) as [v|]; split.
  - intros H value Hv. injection Hv as <-. exact H.
  - intro H. apply H. reflexivity.
  - intros _ value Hv. discriminate.
  - reflexivity.
Qed.

Lemma negative_values_nil (params : list (string * string))
      (user_inputs : Validation.inputs) (rest_of_text : string) :
  Validation.negative_values params user_inputs rest_of_text = [] <->
  (forall key name value,
      In (key, name) params ->
      Validation.lookup user_inputs key = Some value -> 0 <= value).
Proof.
  induction params as [|[k n] later IH]; simpl.
  - split; [intros _ key name value [] | reflexivity].
  - split.
    + intro H. apply app_eq_nil in H as [Hk Hlater].
      rewrite for_key_nil in Hk. rewrite IH in Hlater.
      intros key name value [Heq | Hin] Hv.
      * injection Heq as <- <-.
        specialize (Hk value Hv). apply said_when_nil in Hk.
        apply lt_false_iff in Hk. exact Hk.
      * exact (Hlater key name value Hin Hv).
    + intro H.
      assert (Hk : Validation.for_key user_inputs k
                     (fun value => Validation.said_when (Py.lt value 0)
                                     (String.append n rest_of_text)) = []).
      { apply for_key_nil. intros value Hv. apply said_when_nil.
        apply lt_false_iff. exact (H k n value (or_introl eq_refl) Hv). }
      rewrite Hk. simpl. apply IH.
      intros key name value Hin Hv. exact (H key name value (or_intror Hin) Hv).
Qed.

Lemma outside_false (x lo hi : Q) :
  Py.lt x lo || Py.gt x hi = false <-> lo <= x /\ x <= hi.
Proof.
  rewrite orb_false_iff, lt_false_iff, gt_false_iff. tauto.
Qed.

(** The C-rate check never divides by zero. *)
Lemma c_rate_warnings_defined (user_inputs : Validation.inputs) :
  exists said, Validation.c_rate_warnings user_inputs = Some said.
Proof.
  unfold Validation.c_rate_warnings.
  destruct (Validation.lookup user_inputs "battery_capacity") as [capacity|]; [|eauto].
  destruct (Validation.lookup user_inputs "battery_power") as [power|]; [|eauto].
  destruct (Py.gt capacity 0 && Py.gt power 0) eqn:E; [|eauto].
  apply andb_true_iff in E as [Hc _]. apply gt_true_iff in Hc.
  rewrite div_defined by lra. cbn [Py.bind]. eauto.
Qed.

Lemma validate_inputs_defined (user_inputs : Validation.inputs) :
  exists warnings,
    Validation.warnings_of user_inputs = Some warnings /\
    Validation.validate_inputs user_inputs
    = Some (warnings, Validation.errors_of user_inputs).
Proof.
  unfold Validation.validate_inputs, Validation.warnings_of.
  destruct (c_rate_warnings_defined user_inputs) as [said ->].
  cbn [Py.bind]. eauto.
Qed.

(** X13.  [validate_inputs] always returns its two lists, and it reports
    no error exactly when every critical value that is present (yearly
    consumption, PV capacity, turbine count, battery capacity and power, the
    two prices) is not negative, the latitude lies in [-90, 90], the
    longitude in [-180, 180] and the battery efficiency in [0, 1]. *)
Theorem no_error_exactly_for_legal_values (user_inputs : Validation.inputs) :
  exists warnings errors,
    Validation.validate_inputs user_inputs = Some (warnings, errors) /\
    (errors = [] <->
     (forall key name value,
         In (key, name) Validation.critical_numeric_params ->
         Validation.lookup user_inputs key = Some value -> 0 <= value) /\
     (forall lat, Validation.lookup user_inputs "latitude" = Some lat ->
                  -90 <= lat /\ lat <= 90) /\
     (forall lon, Validation.lookup user_inputs "longitude" = Some lon ->
                  -180 <= lon /\ lon <= 180) /\
     (forall efficiency,
         Validation.lookup user_inputs "battery_efficiency" = Some efficiency ->
         0 <= efficiency /\ efficiency <= 1)).
Proof.
  destruct (validate_inputs_defined user_inputs) as (warnings & _ & Hv).
  exists warnings, (Validation.errors_of user_inputs). split; [exact Hv|].
  unfold Validation.errors_of.
  rewrite !app_nil_iff, negative_values_nil, !for_key_nil.
  split.
  - intros (Hneg & Hlat & Hlon & Heff).
    split; [exact Hneg|]. split; [|split].
    + intros lat Hl. apply outside_false.
      exact (proj1 (said_when_nil _ _) (Hlat lat Hl)).
    + intros lon Hl. apply outside_false.
      exact (proj1 (said_when_nil _ _) (Hlon lon Hl)).
    + intros e He. specialize (Heff e He). apply said_when_nil in Heff.
      rewrite orb_false_iff, lt_false_iff, gt_false_iff in Heff. tauto.
  - intros (Hneg & Hlat & Hlon & Heff).
    split; [exact Hneg|]. split; [|split].
    + intros lat Hl. apply said_when_nil. apply outside_false. auto.
    + intros lon Hl. apply said_when_nil. apply outside_false. auto.
    + intros e He. apply said_when_nil.
      rewrite orb_false_iff, lt_false_iff, gt_false_iff.
      destruct (Heff e He). tauto.
Qed.

Lemma Some_inj {A : Type} (a b : A) : Some a = Some b -> a = b.
Proof. congruence. Qed.

Lemma run_button_decided (user_inputs : Validation.inputs) :
  exists warnings,
    Validation.warnings_of user_inputs = Some warnings /\
    App.run_button_disabled user_inputs =
    Some (negb (match warnings, Validation.errors_of user_inputs with
                | [], [] => true
                | _, _ => false
                end)).
Proof.
  destruct (validate_inputs_defined user_inputs) as (warnings & Hw & Hv).
  exists warnings. split; [exact Hw|].
  unfold App.run_button_disabled. rewrite Hv. cbn [Py.bind].
  destruct warnings, (Validation.errors_of user_inputs); reflexivity.
Qed.

Lemma run_button_enabled (user_inputs : Validation.inputs) :
  App.run_button_disabled user_inputs = Some false ->
  Validation.warnings_of user_inputs = Some [] /\
  Validation.errors_of user_inputs = [].
Proof.
  intro H. destruct (run_button_decided user_inputs) as (warnings & Hw & Hb).
  rewrite H in Hb. rewrite Hw.
  destruct warnings; [|discriminate].
  destruct (Validation.errors_of user_inputs); [auto | discriminate].
Qed.

(** X14.  A negative latitude or longitude always draws a warning, and
    [main] disables the run button on any warning: a site in the southern
    or the western hemisphere can never be simulated. *)
Theorem negative_coordinates_disable_the_run
        (user_inputs : Validation.inputs) (key : string) (value : Q) :
  key = "latitude"%string \/ key = "longitude"%string ->
  Validation.lookup user_inputs key = Some value ->
  value < 0 ->
  App.run_button_disabled user_inputs = Some true.
Proof.
  intros Hkey Hv Hneg.
  destruct (run_button_decided user_inputs) as (warnings & Hw & ->).
  destruct warnings as [|w ws]; [exfalso | reflexivity].
  unfold Validation.warnings_of in Hw.
  apply bind_Some in Hw as (said & _ & Hw). apply Some_inj in Hw.
  apply app_nil_iff in Hw as [Hw _].
  rewrite negative_values_nil in Hw.
  assert (Hin : exists name, In (key, name) Validation.coordinate_params).
  { destruct Hkey as [-> | ->]; eexists; simpl; eauto. }
  destruct Hin as [name Hin].
  pose proof (Hw key name value Hin Hv). lra.
Qed.

Lemma negative_coordinates_disable_the_run_witness :
  App.run_button_disabled
    [("latitude"%string, -(3385 # 100)); ("longitude"%string, 15121 # 100);
     ("battery_capacity"%string, 100); ("battery_power"%string, 50)]
  = Some true.
Proof.
  apply (negative_coordinates_disable_the_run _ "latitude"%string (-(3385 # 100))).
  - left. reflexivity.
  - reflexivity.
  - reflexivity.
Defined.

Lemma price_band_nil (price hi lo : Q) (high low : list string) :
  high <> [] -> low <> [] ->
  (if Py.gt price hi then high else if Py.lt price lo then low else []) = [] ->
  lo <= price /\ price <= hi.
Proof.
  intros Hh Hl.
  destruct (Py.gt price hi) eqn:E1; [contradiction|].
  destruct (Py.lt price lo) eqn:E2; [contradiction|].
  apply gt_false_iff in E1. apply lt_false_iff in E2. auto.
Qed.

(** An enabled run button means a battery that is not negative. *)
Lemma enabled_run_button_bounds (user_inputs : Validation.inputs) :
  App.run_button_disabled user_inputs = Some false ->
  forall capacity power,
    Validation.lookup user_inputs "battery_capacity" = Some capacity ->
    Validation.lookup user_inputs "battery_power" = Some power ->
    0 <= capacity /\ 0 <= power.
Proof.
  intro Hon. apply run_button_enabled in Hon as [_ He].
  unfold Validation.errors_of in He.
  rewrite !app_nil_iff, negative_values_nil in He.
  destruct He as (Hneg & _).
  intros capacity power Hc Hp. split.
  - apply (Hneg "battery_capacity"%string "电池储能容量"%string); trivial.
    simpl. tauto.
  - apply (Hneg "battery_power"%string "电池最大充放电功率"%string); trivial.
    simpl. tauto.
Qed.

(** X15.  What an enabled run button guarantees about the values that are
    present: battery capacity and power are not negative and, when both
    are positive, the power lies between 0.1 and 2 times the capacity; the
    purchase price lies in [0.01, 1], the selling price in [0.001, 0.5] and
    does not exceed the purchase price; the latitude lies in [0, 90] and
    the longitude in [0, 180]. *)
Theorem enabled_run_button_guarantees (user_inputs : Validation.inputs) :
  App.run_button_disabled user_inputs = Some false ->
  (forall capacity power,
      Validation.lookup user_inputs "battery_capacity" = Some capacity ->
      Validation.lookup user_inputs "battery_power" = Some power ->
      0 <= capacity /\ 0 <= power /\
      (0 < capacity -> 0 < power ->
       (1 # 10) * capacity <= power /\ power <= 2 * capacity)) /\
  (forall purchase,
      Validation.lookup user_inputs "grid_purchase_price" = Some purchase ->
      1 # 100 <= purchase /\ purchase <= 1) /\
  (forall sell,
      Validation.lookup user_inputs "grid_sell_price" = Some sell ->
      1 # 1000 <= sell /\ sell <= 1 # 2) /\
  (forall purchase sell,
      Validation.lookup user_inputs "grid_purchase_price" = Some purchase ->
      Validation.lookup user_inputs "grid_sell_price" = Some sell ->
      sell <= purchase) /\
  (forall lat, Validation.lookup user_inputs "latitude" = Some lat ->
               0 <= lat /\ lat <= 90) /\
  (forall lon, Validation.lookup user_inputs "longitude" = Some lon ->
               0 <= lon /\ lon <= 180).
Proof.
  intro Hon. apply run_button_enabled in Hon as [Hw He].
  unfold Validation.errors_of in He.
  rewrite !app_nil_iff, negative_values_nil, !for_key_nil in He.
  destruct He as (Hneg & Hlat & Hlon & _).
  unfold Validation.warnings_of in Hw.
  apply bind_Some in Hw as (said & Hrate & Hw). apply Some_inj in Hw.
  rewrite !app_nil_iff, negative_values_nil, !for_key_nil in Hw.
  destruct Hw as (Hcoord & Hspread & _ & _ & _ & _ & -> & Hbuy & Hsell).
  split; [|split; [|split; [|split; [|split]]]].
  - intros capacity power Hc Hp.
    assert (H0 : 0 <= capacity).
    { apply (Hneg "battery_capacity"%string "电池储能容量"%string); trivial.
      simpl. tauto. }
    assert (H1 : 0 <= power).
    { apply (Hneg "battery_power"%string "电池最大充放电功率"%string); trivial.
      simpl. tauto. }
    split; [exact H0|]. split; [exact H1|].
    intros Hcpos Hppos.
    unfold Validation.c_rate_warnings in Hrate. rewrite Hc, Hp in Hrate.
    rewrite (proj2 (gt_true_iff _ _) Hcpos), (proj2 (gt_true_iff _ _) Hppos) in Hrate.
    cbn [andb] in Hrate.
    apply bind_Some in Hrate as (c_rate & Hdiv & Hrate).
    apply div_Some in Hdiv as [_ ->]. injection Hrate as Hrate.
    destruct (Py.gt (power / capacity) 2) eqn:E1; [discriminate|].
    destruct (Py.lt (power / capacity) (1 # 10)) eqn:E2; [discriminate|].
    apply gt_false_iff in E1. apply lt_false_iff in E2.
    assert (Hback : power / capacity * capacity == power) by (field; lra).
    split.
    + rewrite <- Hback. apply Qmult_le_compat_r; lra.
    + rewrite <- Hback. apply Qmult_le_compat_r; lra.
  - intros purchase Hp. specialize (Hbuy purchase Hp).
    apply price_band_nil in Hbuy; [tauto | discriminate | discriminate].
  - intros sell Hs. specialize (Hsell sell Hs).
    apply price_band_nil in Hsell; [tauto | discriminate | discriminate].
  - intros purchase sell Hp Hs. rewrite Hp, Hs in Hspread.
    apply said_when_nil in Hspread. apply lt_false_iff in Hspread. exact Hspread.
  - intros lat Hl. split.
    + apply (Hcoord "latitude"%string "纬度"%string); trivial. simpl. tauto.
    + pose proof (proj1 (said_when_nil _ _) (Hlat lat Hl)) as H.
      apply outside_false in H. tauto.
  - intros lon Hl. split.
    + apply (Hcoord "longitude"%string "经度"%string); trivial. simpl. tauto.
    + pose proof (proj1 (said_when_nil _ _) (Hlon lon Hl)) as H.
      apply outside_false in H. tauto.
Qed.

Lemma demo_inputs_enabled : App.run_button_disabled demo_inputs = Some false.
Proof. vm_compute. reflexivity. Defined.

Lemma enabled_run_button_guarantees_witness :
  (forall capacity power,
      Validation.lookup demo_inputs "battery_capacity" = Some capacity ->
      Validation.lookup demo_inputs "battery_power" = Some power ->
      0 <= capacity /\ 0 <= power /\
      (0 < capacity -> 0 < power ->
       (1 # 10) * capacity <= power /\ power <= 2 * capacity)) /\
  (forall purchase,
      Validation.lookup demo_inputs "grid_purchase_price" = Some purchase ->
      1 # 100 <= purchase /\ purchase <= 1) /\
  (forall sell,
      Validation.lookup demo_inputs "grid_sell_price" = Some sell ->
      1 # 1000 <= sell /\ sell <= 1 # 2) /\
  (forall purchase sell,
      Validation.lookup demo_inputs "grid_purchase_price" = Some purchase ->
      Validation.lookup demo_inputs "grid_sell_price" = Some sell ->
      sell <= purchase) /\
  (forall lat, Validation.lookup demo_inputs "latitude" = Some lat ->
               0 <= lat /\ lat <= 90) /\
  (forall lon, Validation.lookup demo_inputs "longitude" = Some lon ->
               0 <= lon /\ lon <= 180).
Proof.
  apply (enabled_run_button_guarantees demo_inputs). exact demo_inputs_enabled.
Defined.

(** ** The demand series *)

Lemma tile_length (pattern : list Q) (reps : nat) :
  List.length (DataHandler.tile pattern reps) = (reps * List.length pattern)%nat.
Proof.
  induction reps as [|reps IH]; simpl; trivial.
  rewrite length_app, IH. reflexivity.
Qed.

Lemma total_app (xs ys : list Q) :
  DataHandler.total (xs ++ ys) == DataHandler.total xs + DataHandler.total ys.
Proof.
  unfold DataHandler.total. induction xs as [|x xs IH]; simpl.
  - ring.
  - rewrite IH. ring.
Qed.

Lemma total_scaled (xs : list Q) (k : Q) :
  DataHandler.total (map (fun factor => factor * k) xs) == DataHandler.total xs * k.
Proof.
  unfold DataHandler.total. induction xs as [|x xs IH]; simpl.
  - ring.
  - rewrite IH. ring.
Qed.

Lemma total_positive (xs : list Q) :
  xs <> [] -> Forall (fun x => 0 < x) xs -> 0 < DataHandler.total xs.
Proof.
  intros Hne Hall. destruct Hall as [|x xs Hx Hxs]; [contradiction|].
  clear Hne. unfold DataHandler.total. simpl.
  assert (0 <= fold_right Qplus 0 xs).
  { induction Hxs as [|y ys Hy Hys IH]; simpl; lra. }
  lra.
Qed.

Lemma tile_positive (pattern : list Q) (reps : nat) :
  Forall (fun x => 0 < x) pattern ->
  Forall (fun x => 0 < x) (DataHandler.tile pattern reps).
Proof.
  intro Hp. induction reps as [|reps IH]; simpl.
  - constructor.
  - apply Forall_app. auto.
Qed.

Lemma known_patterns (profile_name : string) (pattern : list Q) :
  DataHandler.get_load_profile_pattern profile_name = Some pattern ->
  List.length pattern = 24%nat /\ Forall (fun x => 0 < x) pattern.
Proof.
  unfold DataHandler.get_load_profile_pattern, DataHandler.load_profiles.
  cbn [DataHandler.pattern_of].
  destruct (String.eqb "24小时连续生产型" profile_name).
  - intro H. injection H as <-. split; [reflexivity|].
    unfold DataHandler.continuous_pattern. repeat constructor.
  - destruct (String.eqb "白班为主型" profile_name); [|discriminate].
    intro H. injection H as <-. split; [reflexivity|].
    unfold DataHandler.day_shift_pattern. repeat constructor.
Qed.

(** The series built from a daily pattern of 24 positive factors. *)
Lemma scaled_year (pattern : list Q) (annual_consumption_gwh : Q) :
  List.length pattern = 24%nat -> Forall (fun x => 0 < x) pattern ->
  let annual_pattern :=
    firstn DataHandler.hours_per_year (DataHandler.tile pattern 365) in
  exists scaling_factor,
    Py.div (annual_consumption_gwh * 1000000) (DataHandler.total annual_pattern)
    = Some scaling_factor /\
    List.length annual_pattern = DataHandler.hours_per_year /\
    Forall (fun x => 0 < x) annual_pattern /\
    DataHandler.total annual_pattern * scaling_factor
    == annual_consumption_gwh * 1000000 /\
    (0 <= annual_consumption_gwh -> 0 <= scaling_factor).
Proof.
  intros Hlen Hpos annual_pattern.
  assert (Hall : annual_pattern = DataHandler.tile pattern 365).
  { unfold annual_pattern. apply firstn_all2.
    rewrite tile_length, Hlen. unfold DataHandler.hours_per_year. lia. }
  assert (Hlong : List.length annual_pattern = DataHandler.hours_per_year).
  { rewrite Hall, tile_length, Hlen. reflexivity. }
  assert (Hfactors : Forall (fun x => 0 < x) annual_pattern).
  { rewrite Hall. apply tile_positive. exact Hpos. }
  assert (Htotal : 0 < DataHandler.total annual_pattern).
  { apply total_positive; trivial.
    intro Hnil. rewrite Hnil in Hlong. discriminate. }
  clearbody annual_pattern.
  rewrite div_defined by lra.
  eexists. split; [reflexivity|]. split; [exact Hlong|]. split; [exact Hfactors|].
  split.
  - field. lra.
  - intro Hge. apply Qle_shift_div_l; trivial. lra.
Qed.

(** The series of a profile the configuration knows. *)
Lemma known_profile_series (profile_name : string) (annual_consumption_gwh : Q) :
  In profile_name (map fst DataHandler.load_profiles) ->
  exists series,
    DataHandler.load_mine_load_profile profile_name annual_consumption_gwh
    = Some series /\
    List.length series = DataHandler.hours_per_year /\
    DataHandler.total series == annual_consumption_gwh * 1000000 /\
    (0 <= annual_consumption_gwh -> nonnegative series).
Proof.
  intro Hin.
  assert (Hknown : exists pattern,
             DataHandler.get_load_profile_pattern profile_name = Some pattern).
  { unfold DataHandler.load_profiles in Hin. cbn [map fst In] in Hin.
    destruct Hin as [<- | [<- | []]]; eexists; reflexivity. }
  destruct Hknown as [pattern Hpattern].
  destruct (known_patterns _ _ Hpattern) as [Hlen Hpos].
  destruct (scaled_year pattern annual_consumption_gwh Hlen Hpos)
    as (k & Hk & Hlong & Hfactors & Hsum & Hsign).
  unfold DataHandler.load_mine_load_profile.
  rewrite Hpattern. cbn [Py.bind]. rewrite Hk. cbn [Py.bind].
  eexists. split; [reflexivity|].
  split; [rewrite length_map; exact Hlong|].
  split; [rewrite total_scaled; exact Hsum|].
  intro Hge. unfold nonnegative. apply Forall_map.
  eapply Forall_impl; [|exact Hfactors].
  intros x Hx. cbv beta in Hx |- *. apply Qmult_le_0_compat; [lra | auto].
Qed.

(** X17.  For each of the two load profiles of the configuration,
    [load_mine_load_profile] returns a series of 8760 = 365 * 24 hourly
    values that add up to the requested yearly consumption (in kWh) and,
    when that consumption is not negative, are all non-negative. *)
Theorem load_profile_meets_the_yearly_consumption
        (profile_name : string) (annual_consumption_gwh : Q) :
  In profile_name (map fst DataHandler.load_profiles) ->
  exists series,
    DataHandler.load_mine_load_profile profile_name annual_consumption_gwh
    = Some series /\
    List.length series = (365 * 24)%nat /\
    DataHandler.total series == annual_consumption_gwh * 1000000 /\
    (0 <= annual_consumption_gwh -> nonnegative series).
Proof.
  intro Hin.
  destruct (known_profile_series profile_name annual_consumption_gwh Hin)
    as (series & Hs & Hlen & Hsum & Hsign).
  exists series. auto.
Qed.

Lemma load_profile_meets_the_yearly_consumption_witness :
  exists series,
    DataHandler.load_mine_load_profile "白班为主型" 100 = Some series /\
    List.length series = (365 * 24)%nat /\
    DataHandler.total series == 100 * 1000000 /\
    (0 <= 100 -> nonnegative series).
Proof.
  apply (load_profile_meets_the_yearly_consumption "白班为主型" 100).
  unfold DataHandler.load_profiles. cbn [map fst In]. right. left. reflexivity.
Defined.

(** X18.  [load_mine_load_profile] returns nothing exactly when the
    profile name is not one of the two profiles of the configuration. *)
Theorem load_profile_fails_exactly_on_unknown_names
        (profile_name : string) (annual_consumption_gwh : Q) :
  DataHandler.load_mine_load_profile profile_name annual_consumption_gwh = None <->
  ~ In profile_name (map fst DataHandler.load_profiles).
Proof.
  split.
  - intros Hnone Hin.
    destruct (known_profile_series profile_name annual_consumption_gwh Hin)
      as (series & Hs & _).
    congruence.
  - intro Hout. unfold DataHandler.load_mine_load_profile.
    assert (Hp : DataHandler.get_load_profile_pattern profile_name = None).
    { unfold DataHandler.get_load_profile_pattern, DataHandler.load_profiles in *.
      cbn [DataHandler.pattern_of]. cbn [map fst In] in Hout.
      destruct (String.eqb_spec "24小时连续生产型" profile_name) as [E | _];
        [exfalso; apply Hout; auto|].
      destruct (String.eqb_spec "白班为主型" profile_name) as [E | _];
        [exfalso; apply Hout; auto|].
      reflexivity. }
    rewrite Hp. reflexivity.
Qed.

(** ** The generation series *)

Lemma clip_nonneg (value : Q) : 0 <= Generation.clip value.
Proof.
  unfold Generation.clip. destruct (Py.lt value 0) eqn:E.
  - lra.
  - apply lt_false_iff in E. exact E.
Qed.

Lemma zeros_nonnegative (weather_rows : nat) :
  nonnegative (Generation.zeros weather_rows).
Proof.
  unfold nonnegative, Generation.zeros.
  induction weather_rows as [|n IH]; simpl; constructor; trivial. lra.
Qed.

Lemma solar_power_nonnegative (weather_rows : nat) (pv_capacity_mw : Q)
      (run : Generation.library_run) :
  nonnegative (Generation.calculate_solar_power weather_rows pv_capacity_mw run).
Proof.
  unfold Generation.calculate_solar_power.
  destruct (Qle_bool pv_capacity_mw 0); [apply zeros_nonnegative|].
  destruct run as [|ac]; [apply zeros_nonnegative|].
  unfold nonnegative. apply Forall_map. apply Forall_forall.
  intros entry _. apply clip_nonneg.
Qed.

Lemma wind_power_nonnegative (weather_rows : nat) (turbine_model : string)
      (num_turbines : Q) (run : Generation.library_run) :
  nonnegative (Generation.calculate_wind_power weather_rows turbine_model
                                               num_turbines run).
Proof.
  unfold Generation.calculate_wind_power.
  destruct (Qle_bool num_turbines 0); [apply zeros_nonnegative|].
  destruct (negb (Generation.known_turbine turbine_model));
    [apply zeros_nonnegative|].
  destruct run as [|out]; [apply zeros_nonnegative|].
  unfold nonnegative. apply Forall_map. apply Forall_forall.
  intros entry _. apply clip_nonneg.
Qed.

(** X19.  Whatever the libraries yield (an exception, NaN entries,
    negative power), the series [calculate_solar_power] and
    [calculate_wind_power] hand on never contain a negative value. *)
Theorem generation_is_never_negative
        (weather_rows : nat) (pv_capacity_mw num_turbines : Q)
        (turbine_model : string) (run : Generation.library_run) :
  nonnegative (Generation.calculate_solar_power weather_rows pv_capacity_mw run) /\
  nonnegative (Generation.calculate_wind_power weather_rows turbine_model
                                               num_turbines run).
Proof.
  split; [apply solar_power_nonnegative | apply wind_power_nonnegative].
Qed.

(** ** The whole computation of the application *)

Lemma skipn_nth_error {A : Type} (l : list A) :
  forall i x, nth_error l i = Some x -> skipn i l = x :: skipn (S i) l.
Proof.
  induction l as [|y l IH]; intros [|i] x H; try discriminate.
  - injection H as <-. reflexivity.
  - change (skipn i l = x :: skipn (S i) l). apply IH. exact H.
Qed.

(** The demand column of a ledger is the demand series it was made from. *)
Lemma ledger_loads (cfg : settings) (mine_load solar_power wind_power : list Q) :
  forall i soc rows,
    ledger_from cfg mine_load solar_power wind_power i soc rows ->
    map mine_load_kw rows = firstn (List.length rows) (skipn i mine_load).
Proof.
  induction 1 as [|i soc l s w r rows Hl Hs Hw Hr Hrest IH].
  - reflexivity.
  - destruct (simulate_hour_fields _ _ _ _ _ _ Hr) as (El & _).
    rewrite (skipn_nth_error _ _ _ Hl).
    cbn [map List.length firstn]. rewrite El, IH. reflexivity.
Qed.

Lemma run_simulation_loads
      (mine_load solar_power wind_power : list Q) (cap_mwh pow_mw : Q)
      (kwargs : list (string * Q)) (ledger : list hour_result) :
  run_simulation mine_load solar_power wind_power cap_mwh pow_mw kwargs
  = Some ledger ->
  map mine_load_kw ledger = mine_load.
Proof.
  intro Hrun. apply run_simulation_ledger in Hrun as (Hled & Hlen & _).
  rewrite (ledger_loads _ _ _ _ _ _ _ Hled), Hlen.
  cbn [skipn]. apply firstn_all.
Qed.

Lemma known_profile_dec (profile_name : string) :
  {In profile_name (map fst DataHandler.load_profiles)} +
  {~ In profile_name (map fst DataHandler.load_profiles)}.
Proof. apply in_dec. apply string_dec. Qed.

(** What the steps of [start_async_simulation] hand to the engine. *)
Lemma start_async_simulation_steps
      (user_inputs : Validation.inputs) (around : Workflow.surroundings)
      (ledger : list hour_result) :
  Workflow.start_async_simulation user_inputs around = Some ledger ->
  exists annual load_data solar_power wind_power,
    Validation.lookup user_inputs "annual_consumption" = Some annual /\
    DataHandler.load_mine_load_profile (Workflow.load_type around) annual
    = Some load_data /\
    List.length load_data = (365 * 24)%nat /\
    DataHandler.total load_data == annual * 1000000 /\
    (0 <= annual -> nonnegative load_data) /\
    nonnegative solar_power /\ nonnegative wind_power /\
    App.simulate user_inputs load_data solar_power wind_power = Some ledger.
Proof.
  unfold Workflow.start_async_simulation. intro H.
  apply bind_Some in H as (purchase & _ & H).
  apply bind_Some in H as (sell & _ & H).
  apply bind_Some in H as (annual & Hannual & H).
  apply bind_Some in H as (load_data & Hload & H).
  apply bind_Some in H as (latitude & _ & H).
  apply bind_Some in H as (longitude & _ & H).
  apply bind_Some in H as (year & _ & H).
  apply bind_Some in H as (rows & _ & H).
  apply bind_Some in H as (pv & _ & H).
  apply bind_Some in H as (turbines & _ & H).
  destruct (known_profile_dec (Workflow.load_type around)) as [Hin | Hout].
  - destruct (known_profile_series _ annual Hin)
      as (series & Hseries & Hlen & Hsum & Hsign).
    rewrite Hload in Hseries. injection Hseries as <-.
    exists annual, load_data.
    eexists. eexists.
    split; [exact Hannual|]. split; [exact Hload|].
    split; [exact Hlen|]. split; [exact Hsum|]. split; [exact Hsign|].
    split; [apply solar_power_nonnegative|].
    split; [apply wind_power_nonnegative|]. exact H.
  - exfalso.
    unfold DataHandler.load_mine_load_profile in Hload.
    apply bind_Some in Hload as (pattern & Hpattern & _).
    apply Hout.
    unfold DataHandler.get_load_profile_pattern, DataHandler.load_profiles in *.
    cbn [DataHandler.pattern_of] in Hpattern. cbn [map fst In].
    destruct (String.eqb_spec "24小时连续生产型" (Workflow.load_type around));
      [auto|].
    destruct (String.eqb_spec "白班为主型" (Workflow.load_type around));
      [auto | discriminate].
Qed.

(** X20.  Every ledger the application computes has one row for each of
    the 8760 = 365 * 24 hours of the year, and its total demand, in GWh,
    is the yearly consumption the user asked for. *)
Theorem app_ledger_covers_the_requested_year
        (user_inputs : Validation.inputs) (around : Workflow.surroundings)
        (ledger : list hour_result) :
  Workflow.start_async_simulation user_inputs around = Some ledger ->
  exists annual,
    Validation.lookup user_inputs "annual_consumption" = Some annual /\
    List.length ledger = (365 * 24)%nat /\
    total_load_consumption_gwh ledger == annual.
Proof.
  intro H.
  destruct (start_async_simulation_steps _ _ _ H)
    as (annual & load_data & solar & wind & Ha & _ & Hlen & Hsum & _ & _ & _ & Hsim).
  exists annual. split; [exact Ha|].
  unfold App.simulate in Hsim.
  apply bind_Some in Hsim as (purchase & _ & Hsim).
  apply bind_Some in Hsim as (sell & _ & Hsim).
  apply bind_Some in Hsim as (capacity & _ & Hsim).
  apply bind_Some in Hsim as (power & _ & Hsim).
  pose proof (run_simulation_loads _ _ _ _ _ _ _ Hsim) as Hloads.
  apply run_simulation_ledger in Hsim as (_ & Hrows & _).
  split; [congruence|].
  unfold total_load_consumption_gwh, column_sum. rewrite Hloads.
  fold (DataHandler.total load_data). rewrite Hsum. field.
Qed.

Lemma demo_workflow_runs :
  exists ledger,
    Workflow.start_async_simulation demo_inputs demo_surroundings = Some ledger.
Proof.
  unfold Workflow.start_async_simulation.
  change (Validation.lookup demo_inputs "grid_purchase_price") with (Some (15 # 100)).
  change (Validation.lookup demo_inputs "grid_sell_price") with (Some (5 # 100)).
  change (Validation.lookup demo_inputs "annual_consumption") with (Some 100).
  change (Validation.lookup demo_inputs "latitude") with (Some (399 # 10)).
  change (Validation.lookup demo_inputs "longitude") with (Some (1164 # 10)).
  change (Validation.lookup demo_inputs "analysis_year") with (Some 2023).
  change (Validation.lookup demo_inputs "pv_capacity") with (Some 50).
  change (Validation.lookup demo_inputs "wind_turbine_count") with (Some 10).
  cbn [Py.bind].
  destruct (known_profile_series (Workflow.load_type demo_surroundings) 100)
    as (load_data & -> & Hlen & _).
  { unfold DataHandler.load_profiles. cbn [map fst In]. right. left. reflexivity. }
  cbn [Py.bind Workflow.weather_rows demo_surroundings].
  unfold App.simulate.
  change (Validation.lookup demo_inputs "grid_purchase_price") with (Some (15 # 100)).
  change (Validation.lookup demo_inputs "grid_sell_price") with (Some (5 # 100)).
  change (Validation.lookup demo_inputs "battery_capacity") with (Some 100).
  change (Validation.lookup demo_inputs "battery_power") with (Some 50).
  cbn [Py.bind].
  match goal with
  | |- exists ledger, run_simulation ?m ?s ?w ?c ?p ?k = Some ledger =>
      destruct (run_simulation_defined m s w c p k) as (ledger & Hrun & _);
      [ | | | | | exists ledger; exact Hrun]
  end.
  - intro Hnil. rewrite Hnil in Hlen. discriminate.
  - rewrite Hlen. unfold Generation.calculate_solar_power.
    change (Qle_bool 50 0) with false.
    change (Workflow.solar_run demo_surroundings)
      with (Generation.Produces (repeat (Some 500000) (365 * 24))).
    cbv iota. rewrite length_map, repeat_length. apply Nat.le_refl.
  - rewrite Hlen. unfold Generation.calculate_wind_power.
    change (Qle_bool 10 0) with false.
    change (negb (Generation.known_turbine
                    (Workflow.wind_turbine_model demo_surroundings))) with false.
    change (Workflow.wind_run demo_surroundings) with Generation.Raises.
    cbv iota. unfold Generation.zeros.
    rewrite repeat_length. apply Nat.le_refl.
  - discriminate.
  - discriminate.
Qed.

Lemma app_ledger_covers_the_requested_year_witness :
  exists ledger annual,
    Workflow.start_async_simulation demo_inputs demo_surroundings = Some ledger /\
    Validation.lookup demo_inputs "annual_consumption" = Some annual /\
    List.length ledger = (365 * 24)%nat /\
    total_load_consumption_gwh ledger == annual.
Proof.
  destruct demo_workflow_runs as [ledger Hrun].
  destruct (app_ledger_covers_the_requested_year _ _ _ Hrun)
    as (annual & Ha & Hlen & Hsum).
  exists ledger, annual. auto.
Defined.

(** The attribution on rows of the shape the engine gives them. *)
Lemma dispatched_ledger_conserves (ledger : list hour_result) :
  Forall dispatched_row ledger ->
  exists f,
    sankey_flows ledger = Some f /\
    into_load f == total_load_consumption_gwh ledger /\
    into_battery f == total_battery_charge_gwh ledger /\
    into_grid f == total_grid_sell_gwh ledger.
Proof.
  intro Hrows.
  destruct (attribute_rows_conserves ledger Hrows no_flows)
    as (acc & Hacc & L & B & G).
  unfold sankey_flows. rewrite Hacc. simpl.
  exists (to_gwh acc). split; [reflexivity|].
  destruct (to_gwh_sums acc) as (L' & B' & G').
  unfold total_load_consumption_gwh, total_battery_charge_gwh, total_grid_sell_gwh.
  rewrite L', B', G', L, B, G.
  unfold into_load, into_battery, into_grid, no_flows. cbn.
  repeat split; field.
Qed.

(** X21.  End to end: whenever the run button is enabled, the ledger the
    application computes is one on which the flow attribution succeeds and
    conserves every destination: what the sources are credited with into
    the load, into the battery and into the grid adds up to the ledger's
    total demand, total charge and total sale. *)
Theorem app_attribution_conserves
        (user_inputs : Validation.inputs) (around : Workflow.surroundings)
        (ledger : list hour_result) :
  App.run_button_disabled user_inputs = Some false ->
  Workflow.start_async_simulation user_inputs around = Some ledger ->
  exists f,
    sankey_flows ledger = Some f /\
    into_load f == total_load_consumption_gwh ledger /\
    into_battery f == total_battery_charge_gwh ledger /\
    into_grid f == total_grid_sell_gwh ledger.
Proof.
  intros Hon H.
  destruct (start_async_simulation_steps _ _ _ H)
    as (annual & load_data & solar & wind & Ha & _ & _ & _ & Hsign & Hs & Hw & Hsim).
  pose proof (enabled_run_button_bounds user_inputs Hon) as Hbattery.
  assert (Hannual : 0 <= annual).
  { apply run_button_enabled in Hon as [_ He].
    unfold Validation.errors_of in He.
    rewrite !app_nil_iff, negative_values_nil in He.
    destruct He as (Hneg & _).
    apply (Hneg "annual_consumption"%string "年总用电量"%string); trivial.
    simpl. tauto. }
  unfold App.simulate in Hsim.
  apply bind_Some in Hsim as (purchase & _ & Hsim).
  apply bind_Some in Hsim as (sell & _ & Hsim).
  apply bind_Some in Hsim as (capacity & Hc & Hsim).
  apply bind_Some in Hsim as (power & Hp & Hsim).
  destruct (Hbattery capacity power Hc Hp) as (Hc0 & Hp0).
  set (kwargs := [("grid_purchase_price"%string, purchase);
                  ("grid_sell_price"%string, sell)]) in *.
  assert (Hcfg : valid_settings (read_settings capacity power kwargs)).
  { unfold valid_settings. simpl. repeat split; lra. }
  apply dispatched_ledger_conserves.
  apply run_simulation_ledger in Hsim as (Hled & _ & _).
  exact (ledger_dispatched _ _ _ _ Hcfg (Hsign Hannual) Hs Hw _ _ _ Hled
           (initial_soc_in_range _ (proj1 Hcfg))).
Qed.

Lemma app_attribution_conserves_witness :
  exists ledger f,
    Workflow.start_async_simulation demo_inputs demo_surroundings = Some ledger /\
    sankey_flows ledger = Some f /\
    into_load f == total_load_consumption_gwh ledger /\
    into_battery f == total_battery_charge_gwh ledger /\
    into_grid f == total_grid_sell_gwh ledger.
Proof.
  destruct demo_workflow_runs as [ledger Hrun].
  destruct (app_attribution_conserves _ _ _ demo_inputs_enabled Hrun)
    as (f & Hf & Hl & Hb & Hg).
  exists ledger, f. auto.
Defined.

(** ** The engine on binary64 numbers *)

Lemma binary64_dispatch_one_side (cfg : FloatEngine.settings)
      (soc net_load charge discharge soc' buy sell : PrimFloat.float) :
  FloatEngine.dispatch cfg soc net_load = Some (charge, discharge, soc', buy, sell) ->
  (charge = Py64.zero /\ sell = Py64.zero) \/
  (discharge = Py64.zero /\ buy = Py64.zero).
Proof.
  unfold FloatEngine.dispatch, Py64.zero.
  destruct (Py64.gt net_load _).
  - intro H. apply Some_inj in H. left.
    split; congruence.
  - intro H. apply bind_Some in H as (headroom & _ & H).
    apply Some_inj in H. right.
    split; congruence.
Qed.

Lemma binary64_hour_one_side (cfg : FloatEngine.settings)
      (soc load_kw solar_kw wind_kw : PrimFloat.float)
      (row : FloatEngine.hour_result) :
  FloatEngine.simulate_hour cfg soc load_kw solar_kw wind_kw = Some row ->
  (FloatEngine.battery_charge_kw row = Py64.zero /\
   FloatEngine.grid_sell_kw row = Py64.zero) \/
  (FloatEngine.battery_discharge_kw row = Py64.zero /\
   FloatEngine.grid_buy_kw row = Py64.zero).
Proof.
  unfold FloatEngine.simulate_hour. intro H.
  apply bind_Some in H as (f & Hf & H).
  destruct f as [[[[charge discharge] soc'] buy] sell].
  apply bind_Some in H as (ratio & _ & H).
  apply Some_inj in H. subst row. cbn.
  exact (binary64_dispatch_one_side _ _ _ _ _ _ _ _ Hf).
Qed.

Lemma binary64_loop_one_side (cfg : FloatEngine.settings)
      (mine_load solar_power wind_power : list PrimFloat.float) :
  forall hours soc rows,
    FloatEngine.simulation_loop cfg mine_load solar_power wind_power hours soc
    = Some rows ->
    Forall (fun row =>
              (FloatEngine.battery_charge_kw row = Py64.zero /\
               FloatEngine.grid_sell_kw row = Py64.zero) \/
              (FloatEngine.battery_discharge_kw row = Py64.zero /\
               FloatEngine.grid_buy_kw row = Py64.zero))
           rows.
Proof.
  induction hours as [|i later IH]; intros soc rows H.
  - apply Some_inj in H. subst rows. constructor.
  - cbn [FloatEngine.simulation_loop] in H.
    apply bind_Some in H as (load_kw & _ & H).
    apply bind_Some in H as (solar_kw & _ & H).
    apply bind_Some in H as (wind_kw & _ & H).
    apply bind_Some in H as (row & Hrow & H).
    apply bind_Some in H as (rest & Hrest & H).
    apply Some_inj in H. subst rows. constructor.
    + exact (binary64_hour_one_side _ _ _ _ _ _ Hrow).
    + exact (IH _ _ Hrest).
Qed.

(** X23.  Also on binary64 numbers every row of a ledger is one-sided:
    either the hour is a deficit hour, and then the recorded charge and
    grid sale are exactly 0, or it is a surplus hour, and then the recorded
    discharge and grid purchase are exactly 0.  So the battery never
    charges and discharges in the same row and the grid never buys and
    sells in the same row, whatever the series and the settings. *)
Theorem binary64_rows_are_one_sided
        (mine_load solar_power wind_power : list PrimFloat.float)
        (battery_capacity_mwh battery_power_mw : PrimFloat.float)
        (kwargs : list (string * PrimFloat.float))
        (ledger : list FloatEngine.hour_result) :
  FloatEngine.run_simulation mine_load solar_power wind_power
                             battery_capacity_mwh battery_power_mw kwargs
  = Some ledger ->
  Forall (fun row =>
            (FloatEngine.battery_charge_kw row = Py64.zero /\
             FloatEngine.grid_sell_kw row = Py64.zero) \/
            (FloatEngine.battery_discharge_kw row = Py64.zero /\
             FloatEngine.grid_buy_kw row = Py64.zero))
         ledger.
Proof.
  unfold FloatEngine.run_simulation. intro H.
  apply bind_Some in H as (rows & Hloop & Hframe).
  destruct rows as [|first rest]; [discriminate|].
  apply Some_inj in Hframe. subst ledger.
  exact (binary64_loop_one_side _ _ _ _ _ _ _ Hloop).
Qed.

Lemma binary64_rows_are_one_sided_witness :
  exists ledger,
    FloatEngine.run_simulation FloatEngine.refill_load FloatEngine.refill_solar
                               FloatEngine.refill_wind
                               FloatEngine.refill_capacity_mwh
                               FloatEngine.refill_power_mw []
    = Some ledger /\
    Forall (fun row =>
              (FloatEngine.battery_charge_kw row = Py64.zero /\
               FloatEngine.grid_sell_kw row = Py64.zero) \/
              (FloatEngine.battery_discharge_kw row = Py64.zero /\
               FloatEngine.grid_buy_kw row = Py64.zero))
           ledger.
Proof.
  destruct (FloatEngine.run_simulation
              FloatEngine.refill_load FloatEngine.refill_solar
              FloatEngine.refill_wind FloatEngine.refill_capacity_mwh
              FloatEngine.refill_power_mw [])
    as [ledger|] eqn:Hrun; [|vm_compute in Hrun; discriminate].
  exists ledger. split; [reflexivity|].
  exact (binary64_rows_are_one_sided _ _ _ _ _ _ _ Hrun).
Defined.
